(** * ekdsend-go: the request executor, its error taxonomy and the
    resource helpers, embedded from the Go sources.

    Conventions of the embedding.
    - Go [string] and [[]byte] are byte sequences: [string] and
      [list Byte.byte].
    - Go [int] is the 64-bit two's-complement integer of the usual targets;
      it is carried by [Z] and every addition is followed by [wrap].
    - A pointer argument that the callee writes through ([result],
      [params]) is modelled by passing the pointee in and handing the
      updated pointee back.
    - Everything the executor asks of other packages ([rate], [net/http],
      [encoding/json], [io]) is an explicit parameter: the codecs are
      type classes on the encoded type, the outcomes of one call's
      interactions with the limiter and the transport are gathered in
      [Env]. A response is taken with the outcome of reading its body.
    - Observable effects (sends, sleeps, decodes, debug lines) are logged
      in a trace by a small writer monad. *)

From Stdlib Require Import ZArith Lia Bool List String Ascii.
From Stdlib Require Import Floats.SpecFloat DecimalString.
From Stdlib Require Import Strings.Byte.
From stdpp Require Import base strings gmap.
Import ListNotations.

Local Open Scope string_scope.
Local Open Scope Z_scope.

(** ** Machine integers *)

Module GoInt.

Definition bits : Z := 64.
Definition MaxInt : Z := 2 ^ (bits - 1) - 1.
Definition MinInt : Z := - 2 ^ (bits - 1).

(** Reduction of a mathematical integer to the [int] that Go stores. *)
Definition wrap (z : Z) : Z := (z + 2 ^ (bits - 1)) mod 2 ^ bits - 2 ^ (bits - 1).

Definition add (a b : Z) : Z := wrap (a + b).

Definition in_range (z : Z) : Prop := MinInt <= z <= MaxInt.

End GoInt.

(** ** strings package *)

Module strings.

(** [len(s) >= len(prefix) && s[:len(prefix)] == prefix] *)
Definition HasPrefix (s prefix : string) : bool :=
  (String.length prefix <=? String.length s)%nat
  && String.eqb (substring 0 (String.length prefix) s) prefix.

(** [len(s) >= len(suffix) && s[len(s)-len(suffix):] == suffix] *)
Definition HasSuffix (s suffix : string) : bool :=
  (String.length suffix <=? String.length s)%nat
  && String.eqb
       (substring (String.length s - String.length suffix)
                  (String.length suffix) s)
       suffix.

Definition TrimSuffix (s suffix : string) : string :=
  if HasSuffix s suffix
  then substring 0 (String.length s - String.length suffix) s
  else s.

(** [strings.Join(elems, sep)] *)
Definition Join (elems : list string) (sep : string) : string :=
  String.concat sep elems.

End strings.

(** ** Values held by [interface{}] after JSON decoding *)

#[local] Set Warnings "-register-all".

Inductive JSONValue : Type :=
| JNil
| JBool (b : bool)
| JFloat64 (f : spec_float)
| JString (s : string)
| JSlice (l : list JSONValue)
| JMap (m : gmap string JSONValue).

(** ** errors.go *)

Record EKDSendError : Type := mkEKDSendError {
  Message : string;
  StatusCode : Z;
  Code : string;
  RequestID : string
}.

Record AuthenticationError : Type := mkAuthenticationError {
  auth_EKDSendError : EKDSendError
}.

(** A Go map may be nil: [None]. *)
Record ValidationError : Type := mkValidationError {
  val_EKDSendError : EKDSendError;
  Errors : option (gmap string JSONValue)
}.

Record RateLimitError : Type := mkRateLimitError {
  rl_EKDSendError : EKDSendError;
  RetryAfter : Z
}.

Record NotFoundError : Type := mkNotFoundError {
  nf_EKDSendError : EKDSendError
}.

(** The dynamic values of Go's [error] interface that occur in the
    package: errors handed over by a library, [errors.New] values,
    [fmt.Errorf("...: %w", err)] wrappers, and pointers to the five API
    error structs. *)
Inductive error : Type :=
| LibError (msg : string)
| NewError (msg : string)
| WrapError (prefix : string) (inner : error)
| EKDSendErr (e : EKDSendError)
| AuthenticationErr (e : AuthenticationError)
| ValidationErr (e : ValidationError)
| RateLimitErr (e : RateLimitError)
| NotFoundErr (e : NotFoundError).

(** [errors.Unwrap] *)
Definition Unwrap (err : error) : option error :=
  match err with
  | WrapError _ inner => Some inner
  | _ => None
  end.

(** The embedded base struct of an API error, when [err] is one. *)
Definition base (err : error) : option EKDSendError :=
  match err with
  | EKDSendErr e => Some e
  | AuthenticationErr e => Some (auth_EKDSendError e)
  | ValidationErr e => Some (val_EKDSendError e)
  | RateLimitErr e => Some (rl_EKDSendError e)
  | NotFoundErr e => Some (nf_EKDSendError e)
  | LibError _ | NewError _ | WrapError _ _ => None
  end.

(** The type assertion of [err] to a pointer to [AuthenticationError]. *)
Definition IsAuthenticationError (err : error) : bool :=
  match err with AuthenticationErr _ => true | _ => false end.

Definition IsValidationError (err : error) : bool :=
  match err with ValidationErr _ => true | _ => false end.

Definition IsRateLimitError (err : error) : bool :=
  match err with RateLimitErr _ => true | _ => false end.

Definition IsNotFoundError (err : error) : bool :=
  match err with NotFoundErr _ => true | _ => false end.

(** ** types.go: pagination *)

Record PaginatedResponse (T : Type) : Type := mkPaginatedResponse {
  Data : list T;
  Total : Z;
  Limit : Z;
  Offset : Z
}.
Arguments mkPaginatedResponse {T}.
Arguments Data {T}.
Arguments Total {T}.
Arguments Limit {T}.
Arguments Offset {T}.

Definition HasMore {T} (p : PaginatedResponse T) : bool :=
  GoInt.add (Offset p) (Limit p) <? Total p.

Definition NextOffset {T} (p : PaginatedResponse T) : Z :=
  GoInt.add (Offset p) (Limit p).

(** ** Effects: a trace of what a call does to the outside *)

Definition bytes : Type := list Byte.byte.

(** The outbound request as built by [Request]. *)
Record HTTPRequest : Type := mkHTTPRequest {
  req_Method : string;
  req_URL : string;
  req_Body : option bytes;
  req_Header : list (string * string)
}.

(** What the executor reads of an [http.Response]: the status, the
    outcome [(respBody, err)] of [io.ReadAll(resp.Body)], and
    [resp.Header.Get]. *)
Record Response : Type := mkResponse {
  resp_StatusCode : Z;
  resp_Body : bytes;
  resp_ReadErr : option error;
  resp_HeaderGet : string -> string
}.

Inductive event : Type :=
| EvSend (attempt : nat) (req : HTTPRequest)
| EvSleep (d : Z)
| EvUnmarshal (body : bytes)
| EvPrintRequest (method path : string) (jsonBody : bytes)
| EvPrintResponse (status : Z) (body : bytes).

Definition M (A : Type) : Type := list event * A.

Definition ret {A} (a : A) : M A := ([], a).

Definition bind {A B} (m : M A) (k : A -> M B) : M B :=
  let (t1, a) := m in
  let (t2, b) := k a in
  ((t1 ++ t2)%list, b).

Definition emit (e : event) : M unit := ([e], tt).

Notation "x <- m ;; k" := (bind m (fun x => k))
  (at level 100, m at next level, right associativity).
Notation "m ;; k" := (bind m (fun _ => k))
  (at level 100, right associativity).

Definition trace {A} (m : M A) : list event := fst m.
Definition value {A} (m : M A) : A := snd m.

Definition is_send (e : event) : bool :=
  match e with EvSend _ _ => true | _ => false end.

Definition is_unmarshal (e : event) : bool :=
  match e with EvUnmarshal _ => true | _ => false end.

(** The sleeps of a trace, in order. *)
Fixpoint sleeps (t : list event) : list Z :=
  match t with
  | [] => []
  | EvSleep d :: t' => d :: sleeps t'
  | _ :: t' => sleeps t'
  end.

(** The sends and sleeps of a trace, in order; [inl attempt] for a send. *)
Fixpoint wire (t : list event) : list (nat + Z) :=
  match t with
  | [] => []
  | EvSend attempt _ :: t' => inl attempt :: wire t'
  | EvSleep d :: t' => inr d :: wire t'
  | _ :: t' => wire t'
  end.

(** A Go call either returns or stops on a nil dereference. *)
Inductive outcome (A : Type) : Type :=
| Returns (a : A)
| Panics.
Arguments Returns {A}.
Arguments Panics {A}.

(** ** encoding/json as seen from the package *)

(** [json.Marshal(v)] for values of type [B]: [(jsonBody, err)]. *)
Class Marshaler (B : Type) : Type :=
  Marshal : B -> bytes * option error.

(** [json.Unmarshal(data, &v)] for a destination of type [D]: the
    destination after the call and the returned error. *)
Class Unmarshaler (D : Type) : Type :=
  Unmarshal : bytes -> D -> D * option error.

(** ** client.go *)

Module time.
Definition Second : Z := 1000000000.
End time.

Definition Version : string := "1.1.0".
Definition DefaultBaseURL : string := "https://es.ekddigital.com/v1".
Definition DefaultTimeout : Z := 30 * time.Second.

(** [http.Client], by the one field the package sets. *)
Record HTTPClient : Type := mkHTTPClient {
  Timeout : Z
}.

(** [rate.Limiter], by the arguments of [rate.NewLimiter]. *)
Record Limiter : Type := mkLimiter {
  limit : Z;
  burst : Z
}.

(** The resource fields [Emails], [SMS] and [Calls] only point back to
    the client and are represented by the client itself. *)
Record Client : Type := mkClient {
  apiKey : string;
  baseURL : string;
  httpClient : HTTPClient;
  rateLimiter : Limiter;
  debug : bool
}.

Definition ClientOption : Type := Client -> Client.

Definition WithBaseURL (baseURL' : string) : ClientOption :=
  fun c => mkClient (apiKey c) (strings.TrimSuffix baseURL' "/")
                    (httpClient c) (rateLimiter c) (debug c).

Definition WithTimeout (timeout : Z) : ClientOption :=
  fun c => mkClient (apiKey c) (baseURL c) (mkHTTPClient timeout)
                    (rateLimiter c) (debug c).

Definition WithHTTPClient (httpClient' : HTTPClient) : ClientOption :=
  fun c => mkClient (apiKey c) (baseURL c) httpClient' (rateLimiter c) (debug c).

Definition WithDebug (debug' : bool) : ClientOption :=
  fun c => mkClient (apiKey c) (baseURL c) (httpClient c) (rateLimiter c) debug'.

Definition WithRateLimiter (limiter : Limiter) : ClientOption :=
  fun c => mkClient (apiKey c) (baseURL c) (httpClient c) limiter (debug c).

(** [New]: the pair [(client, err)] that Go returns. *)
Definition New (apiKey : string) (opts : list ClientOption)
  : option Client * option error :=
  if String.eqb apiKey "" then
    (None, Some (NewError "API key is required"))
  else if negb (strings.HasPrefix apiKey "ek_live_")
          && negb (strings.HasPrefix apiKey "ek_test_") then
    (None, Some (NewError
       "invalid API key format: must start with 'ek_live_' or 'ek_test_'"))
  else
    let c := mkClient apiKey DefaultBaseURL (mkHTTPClient DefaultTimeout)
                      (mkLimiter 100 10) false in
    (Some (fold_left (fun c opt => opt c) opts c), None).

(** The anonymous struct that [handleError] decodes into. *)
Record errRespError : Type := mkErrRespError {
  er_Message : string;
  er_Code : string;
  er_Details : option (gmap string JSONValue);
  er_RetryAfter : Z
}.

Record errResp : Type := mkErrResp {
  er_Error : errRespError
}.

(** [var errResp struct{...}]: the zero value. *)
Definition zeroErrResp : errResp := mkErrResp (mkErrRespError "" "" None 0).

(** What one call observes of its surroundings, for its context [ctx]:
    the error of [c.rateLimiter.Wait(ctx)], the error of
    [http.NewRequestWithContext(ctx, method, url, body)], and the outcome
    of each successive [c.httpClient.Do(req)], numbered from 0. *)
Record Env : Type := mkEnv {
  Wait : option error;
  NewRequestErr : string -> string -> option bytes -> option error;
  Do : nat -> HTTPRequest -> Response + error
}.

(** [fmt.Errorf(prefix + "%w", err)] *)
Definition Errorf_w (prefix : string) (err : error) : error :=
  WrapError prefix err.

Definition maxRetries : nat := 3.

(** [time.Duration(1<<attempt) * time.Second], in nanoseconds. *)
Definition backoff (attempt : nat) : Z :=
  Z.shiftl 1 (Z.of_nat attempt) * time.Second.

(** How the retry loop is left: by [return], by [break], or by its
    condition [attempt <= maxRetries] turning false. *)
Inductive loop_exit : Type :=
| LoopReturn (err : error)
| LoopBreak (resp : Response)
| LoopEnd.

(** The body of [for attempt := 0; attempt <= maxRetries; attempt++],
    run over the values that [attempt] takes. *)
Fixpoint doWithRetries (env : Env) (req : HTTPRequest) (attempts : list nat)
  : M loop_exit :=
  match attempts with
  | [] => ret LoopEnd
  | attempt :: rest =>
      emit (EvSend attempt req) ;;
      match Do env attempt req with
      | inr err =>
          if (attempt <? maxRetries)%nat then
            emit (EvSleep (backoff attempt)) ;;
            doWithRetries env req rest
          else
            ret (LoopReturn (Errorf_w "request failed: " err))
      | inl resp =>
          if (resp_StatusCode resp =? 429) || (resp_StatusCode resp >=? 500) then
            if (attempt <? maxRetries)%nat then
              emit (EvSleep (backoff attempt)) ;;
              doWithRetries env req rest
            else
              ret (LoopBreak resp)
          else
            ret (LoopBreak resp)
      end
  end.

Section Executor.

Context `{UnmarshalErr : Unmarshaler errResp}.

(** [Client.handleError] *)
Definition handleError (statusCode : Z) (body : bytes) (requestID : string)
  : M error :=
  emit (EvUnmarshal body) ;;
  let (errResp, err) := Unmarshal body zeroErrResp in
  match err with
  | Some _ =>
      ret (EKDSendErr
             (mkEKDSendError "API request failed" statusCode
                             "UNKNOWN_ERROR" requestID))
  | None =>
      if statusCode =? 400 then
        ret (ValidationErr
               (mkValidationError
                  (mkEKDSendError (er_Message (er_Error errResp)) 400
                                  "VALIDATION_ERROR" requestID)
                  (er_Details (er_Error errResp))))
      else if statusCode =? 401 then
        ret (AuthenticationErr
               (mkAuthenticationError
                  (mkEKDSendError (er_Message (er_Error errResp)) 401
                                  "AUTHENTICATION_ERROR" requestID)))
      else if statusCode =? 404 then
        ret (NotFoundErr
               (mkNotFoundError
                  (mkEKDSendError (er_Message (er_Error errResp)) 404
                                  (er_Code (er_Error errResp)) requestID)))
      else if statusCode =? 429 then
        ret (RateLimitErr
               (mkRateLimitError
                  (mkEKDSendError (er_Message (er_Error errResp)) 429
                                  "RATE_LIMIT_EXCEEDED" requestID)
                  (er_RetryAfter (er_Error errResp))))
      else
        ret (EKDSendErr
               (mkEKDSendError (er_Message (er_Error errResp)) statusCode
                               (er_Code (er_Error errResp)) requestID))
  end.

Context {B D : Type} `{MarshalB : Marshaler B} `{UnmarshalD : Unmarshaler D}.

(** [Client.Request], after the loop was left by [break]: read the body,
    classify an error status, decode a success. [result] is the pointee
    of the destination, [None] for a nil destination. *)
Definition finish (c : Client) (resp : Response) (result : option D)
  : M (option D * option error) :=
  match resp_ReadErr resp with
  | Some err =>
      ret (result, Some (Errorf_w "failed to read response body: " err))
  | None =>
      let respBody := resp_Body resp in
      (if debug c
       then emit (EvPrintResponse (resp_StatusCode resp) respBody)
       else ret tt) ;;
      if resp_StatusCode resp >=? 400 then
        err <- handleError (resp_StatusCode resp) respBody
                           (resp_HeaderGet resp "x-request-id") ;;
        ret (result, Some err)
      else
        match result with
        | Some d =>
            if (0 <? length respBody)%nat then
              emit (EvUnmarshal respBody) ;;
              let (d', err) := Unmarshal respBody d in
              match err with
              | Some err =>
                  ret (Some d',
                       Some (Errorf_w "failed to parse response: " err))
              | None => ret (Some d', None)
              end
            else ret (result, None)
        | None => ret (result, None)
        end
  end.

(** The headers set on every request, in the order of the [Set] calls. *)
Definition headers (c : Client) : list (string * string) :=
  [ ("Authorization", "Bearer " ++ apiKey c);
    ("Content-Type", "application/json");
    ("Accept", "application/json");
    ("User-Agent", "ekdsend-go/" ++ Version) ]%string.

(** [Client.Request], from [http.NewRequestWithContext] to the end:
    build the request, run the retry loop, finish. [bodyReader] is the
    serialized body, [None] when the call has none. *)
Definition execute (c : Client) (env : Env) (method reqURL : string)
           (bodyReader : option bytes) (result : option D)
  : M (outcome (option D * option error)) :=
  match NewRequestErr env method reqURL bodyReader with
  | Some err =>
      ret (Returns (result, Some (Errorf_w "failed to create request: " err)))
  | None =>
      let req := mkHTTPRequest method reqURL bodyReader (headers c) in
      exit <- doWithRetries env req (seq 0 (S maxRetries)) ;;
      match exit with
      | LoopReturn err => ret (Returns (result, Some err))
      | LoopBreak resp =>
          r <- finish c resp result ;;
          ret (Returns r)
      | LoopEnd => ret Panics
      end
  end.

(** [Client.Request] *)
Definition Request (c : Client) (env : Env) (method path : string)
           (body : option B) (result : option D)
  : M (outcome (option D * option error)) :=
  match Wait env with
  | Some err =>
      ret (Returns (result, Some (Errorf_w "rate limiter error: " err)))
  | None =>
      let reqURL := (baseURL c ++ path)%string in
      match body with
      | Some b =>
          let (jsonBody, err) := Marshal b in
          match err with
          | Some err =>
              ret (Returns
                     (result,
                      Some (Errorf_w "failed to marshal request body: " err)))
          | None =>
              (if debug c
               then emit (EvPrintRequest method path jsonBody)
               else ret tt) ;;
              execute c env method reqURL (Some jsonBody) result
          end
      | None => execute c env method reqURL None result
      end
  end.

(** [Client.Post] *)
Definition Post (c : Client) (env : Env) (path : string)
           (body : option B) (result : option D)
  : M (outcome (option D * option error)) :=
  Request c env "POST" path body result.

(** Serializing [body] succeeds and gives [bodyReader]; a call without
    a body has no reader. *)
Definition marshalsTo (body : option B) (bodyReader : option bytes) : Prop :=
  option_map Marshal body
  = option_map (fun jsonBody => (jsonBody, @None error)) bodyReader.

(** The debug line printed before the request is built. *)
Definition debugRequest (c : Client) (method path : string)
           (bodyReader : option bytes) : list event :=
  match bodyReader with
  | Some jsonBody =>
      if debug c then [EvPrintRequest method path jsonBody] else []
  | None => []
  end.

End Executor.

(** ** types.go and voice.go *)

(** [time.Time], as nanoseconds since the zero time. *)
Definition Time : Type := Z.

Record VoiceCall : Type := mkVoiceCall {
  vc_ID : string;
  vc_Status : string;
  vc_To : string;
  vc_From : string;
  vc_TTSMessage : string;
  vc_AudioURL : string;
  vc_Voice : string;
  vc_Language : string;
  vc_Record : bool;
  vc_MachineDetection : bool;
  vc_Duration : option Z;
  vc_RecordingURL : string;
  vc_Metadata : option (gmap string string);
  vc_CreatedAt : Time;
  vc_AnsweredAt : option Time;
  vc_EndedAt : option Time
}.

Definition zeroVoiceCall : VoiceCall :=
  mkVoiceCall "" "" "" "" "" "" "" "" false false None "" None 0 None None.

Record CreateCallParams : Type := mkCreateCallParams {
  To : string;
  From : string;
  TTSMessage : string;
  AudioURL : string;
  Voice : string;
  Language : string;
  Record_ : bool;
  MachineDetection : bool;
  WebhookURL : string;
  Metadata : option (gmap string string)
}.

Definition set_Voice (v : string) (p : CreateCallParams) : CreateCallParams :=
  mkCreateCallParams (To p) (From p) (TTSMessage p) (AudioURL p) v (Language p)
                     (Record_ p) (MachineDetection p) (WebhookURL p) (Metadata p).

Definition set_Language (l : string) (p : CreateCallParams) : CreateCallParams :=
  mkCreateCallParams (To p) (From p) (TTSMessage p) (AudioURL p) (Voice p) l
                     (Record_ p) (MachineDetection p) (WebhookURL p) (Metadata p).

(** [struct { Data VoiceCall }], the local [resp] of [Create]. *)
Record callResp : Type := mkCallResp {
  cr_Data : VoiceCall
}.

Definition zeroCallResp : callResp := mkCallResp zeroVoiceCall.

Section Voice.

Context `{UnmarshalErr : Unmarshaler errResp}
        `{MarshalParams : Marshaler CreateCallParams}
        `{UnmarshalCall : Unmarshaler callResp}.

(** The two default assignments of [Create]. *)
Definition setDefaults (params : CreateCallParams) : CreateCallParams :=
  let params :=
    if String.eqb (Voice params) "" then set_Voice "alloy" params else params in
  let params :=
    if String.eqb (Language params) "" then set_Language "en-US" params
    else params in
  params.

(** [VoiceAPI.Create]. The first component is [*params] when the call
    is over; the second is the pair [(call, err)] that Go returns, the
    call being the [Data] of the local [resp] that the executor filled. *)
Definition Create (c : Client) (env : Env) (params : CreateCallParams)
  : M (CreateCallParams * outcome (option VoiceCall * option error)) :=
  if String.eqb (TTSMessage params) "" && String.eqb (AudioURL params) "" then
    ret (params,
         Returns (None, Some (NewError "either TTSMessage or AudioURL is required")))
  else
    let params := setDefaults params in
    r <- Post c env "/calls" (Some params) (Some zeroCallResp) ;;
    match r with
    | Panics => ret (params, Panics)
    | Returns (_, Some err) => ret (params, Returns (None, Some err))
    | Returns (resp, None) =>
        ret (params, Returns (Some (cr_Data (default zeroCallResp resp)), None))
    end.

End Voice.

(** ** Notions used to state the properties *)

(** "[s] starts with [p]", in the words of the specification. *)
Definition starts_with (s p : string) : Prop :=
  exists rest, s = (p ++ rest)%string.

(** A status that the loop retries. *)
Definition retry_status (status : Z) : bool :=
  (status =? 429) || (status >=? 500).

(** An outcome of [Do] that the loop retries: a transport failure, or a
    response with status 429 or 5xx. *)
Definition retried (r : Response + error) : bool :=
  match r with
  | inr _ => true
  | inl resp => retry_status (resp_StatusCode resp)
  end.

(** The call settles on [resp]: the loop is left by [break] with it. *)
Definition settles (env : Env) (req : HTTPRequest) (resp : Response) : Prop :=
  value (doWithRetries env req (seq 0 (S maxRetries))) = LoopBreak resp.

(** ** Concrete surroundings used by the examples *)

Module Scenario.

Definition dq : string := String (ascii_of_nat 34) EmptyString.
Definition quote (s : string) : string := (dq ++ s ++ dq)%string.

(** The error body
    {error:{message:invalid recipient, code:invalid_recipient,
            details:{to:invalid format}, retry_after:30}}
    with its JSON quotes. *)
Definition envelopeBody : bytes :=
  list_byte_of_string
    ("{" ++ quote "error" ++ ":{"
         ++ quote "message" ++ ":" ++ quote "invalid recipient" ++ ","
         ++ quote "code" ++ ":" ++ quote "invalid_recipient" ++ ","
         ++ quote "details" ++ ":{" ++ quote "to" ++ ":"
         ++ quote "invalid format" ++ "},"
         ++ quote "retry_after" ++ ":30}}")%string.

Definition envelope : errResp :=
  mkErrResp
    (mkErrRespError "invalid recipient" "invalid_recipient"
                    (Some {[ "to" := JString "invalid format" ]}) 30).

Definition htmlBody : bytes := list_byte_of_string "<html>Bad Gateway</html>".

Definition bytes_eqb (a b : bytes) : bool :=
  String.eqb (string_of_list_byte a) (string_of_list_byte b).

(** [json.Unmarshal] into the error struct, on the bodies used below:
    it decodes [envelopeBody]; the empty body and [htmlBody] are not
    JSON and are rejected, the destination untouched. *)
Definition unmarshalErrResp : Unmarshaler errResp :=
  fun data v =>
    if bytes_eqb data envelopeBody then (envelope, None)
    else (v, Some (LibError "json: syntax error")).

Definition is_space (b : Byte.byte) : bool :=
  match b with
  | Byte.x20 | Byte.x09 | Byte.x0a | Byte.x0d => true
  | _ => false
  end.

Fixpoint trim_left (data : bytes) : bytes :=
  match data with
  | b :: rest => if is_space b then trim_left rest else data
  | [] => []
  end.

Definition trim (data : bytes) : bytes :=
  rev (trim_left (rev (trim_left data))).

(** [json.Unmarshal] into a [bool]: the literals [true] and [false] are
    stored, [null] leaves the destination as it is, and any other input
    is an error (of syntax or of type, here one value for both). *)
Definition unmarshalBool : Unmarshaler bool :=
  fun data v =>
    let lit := string_of_list_byte (trim data) in
    if String.eqb lit "true" then (true, None)
    else if String.eqb lit "false" then (false, None)
    else if String.eqb lit "null" then (v, None)
    else (v, Some (LibError "json: input is not a boolean")).

(** A call without a body never serializes; the instance is there for
    the types only. *)
Definition marshalUnit : Marshaler unit :=
  fun _ => (list_byte_of_string "null", None).

(** [json.Marshal] of the call parameters, field by field in the order
    of the struct, the [omitempty] fields left out when empty. It is
    [encoding/json] on parameters whose strings need no escaping and
    whose metadata is empty; other metadata is written in the order of
    the map's enumeration. *)
Definition field (name value : string) : string :=
  (quote name ++ ":" ++ quote value)%string.

Definition omitempty (name value : string) : string :=
  if String.eqb value "" then "" else ("," ++ field name value)%string.

Definition omitfalse (name : string) (value : bool) : string :=
  if value then ("," ++ quote name ++ ":true")%string else "".

Definition fields (m : gmap string string) : string :=
  String.concat "," (List.map (fun kv => field (fst kv) (snd kv)) (map_to_list m)).

Definition omitnil (name : string) (value : option (gmap string string)) : string :=
  match value with
  | None => ""
  | Some m =>
      if decide (m = ∅) then ""
      else ("," ++ quote name ++ ":{" ++ fields m ++ "}")%string
  end.

Definition marshalCallParams : Marshaler CreateCallParams :=
  fun p =>
    (list_byte_of_string
       ("{" ++ field "to" (To p) ++ "," ++ field "from" (From p)
            ++ omitempty "tts_message" (TTSMessage p)
            ++ omitempty "audio_url" (AudioURL p)
            ++ omitempty "voice" (Voice p)
            ++ omitempty "language" (Language p)
            ++ omitfalse "record" (Record_ p)
            ++ omitfalse "machine_detection" (MachineDetection p)
            ++ omitempty "webhook_url" (WebhookURL p)
            ++ omitnil "metadata" (Metadata p)
            ++ "}")%string,
     None).

(** The body {data:{id:call_1, status:queued}} with its JSON quotes. *)
Definition callBody : bytes :=
  list_byte_of_string
    ("{" ++ quote "data" ++ ":{" ++ field "id" "call_1" ++ ","
         ++ field "status" "queued" ++ "}}")%string.

Definition queuedCall : VoiceCall :=
  mkVoiceCall "call_1" "queued" "" "" "" "" "" "" false false None "" None 0
              None None.

(** [json.Unmarshal] into the response struct of [Create], on the
    bodies used below: [callBody] fills the two fields it names (the
    destination being the zero value), the empty body and [htmlBody]
    are rejected. *)
Definition unmarshalCallResp : Unmarshaler callResp :=
  fun data v =>
    if bytes_eqb data callBody then (mkCallResp queuedCall, None)
    else (v, Some (LibError "json: syntax error")).

(** A call that plays an audio file, and one that names neither a
    message nor an audio file. *)
Definition audioCall : CreateCallParams :=
  mkCreateCallParams "+14155551234" "+14155559999" ""
                     "https://example.com/message.mp3" "" "" false false ""
                     None.

Definition silentCall : CreateCallParams :=
  mkCreateCallParams "+14155551234" "+14155559999" "" "" "" "" false false ""
                     None.

Definition client : Client :=
  mkClient "ek_test_key" DefaultBaseURL (mkHTTPClient DefaultTimeout)
           (mkLimiter 100 10) false.

Definition header (k : string) : string :=
  if String.eqb k "x-request-id" then "req_42" else "".

Definition response (status : Z) (body : bytes) : Response :=
  mkResponse status body None header.

(** The limiter grants the permit and every send is answered by [resp]. *)
Definition answering (resp : Response) : Env :=
  mkEnv None (fun _ _ _ => None) (fun _ _ => inl resp).

(** The limiter grants the permit and every send fails with [err]. *)
Definition unreachable (err : error) : Env :=
  mkEnv None (fun _ _ _ => None) (fun _ _ => inr err).

(** The context is cancelled while the limiter is waited for. *)
Definition cancelled : Env :=
  mkEnv (Some (LibError "context canceled")) (fun _ _ _ => None)
        (fun _ _ => inr (LibError "context canceled")).

End Scenario.

(** ** The calls of the examples *)

Module Cases.
Import Scenario.

(** A GET without body, decoding into a [bool]. *)
Definition get (env : Env) (result : option bool)
  : M (outcome (option bool * option error)) :=
  @Request unmarshalErrResp unit bool marshalUnit unmarshalBool
           client env "GET" "/emails/em_1" None result.

Definition getRequest : HTTPRequest :=
  mkHTTPRequest "GET" (baseURL client ++ "/emails/em_1") None
                (headers client).

Definition create (env : Env) (params : CreateCallParams)
  : M (CreateCallParams * outcome (option VoiceCall * option error)) :=
  @Create unmarshalErrResp marshalCallParams unmarshalCallResp client env params.

End Cases.

(** ** client.go: the verbs, and voice.go: the other operations *)

(** [strconv.Itoa]: the decimal digits, after a minus sign for a
    negative number. *)
Definition Itoa (i : Z) : string := NilZero.string_of_int (Z.to_int i).

(** [url.Values.Encode], a parameter like the JSON codecs. *)
Class QueryEncoder : Type :=
  Encode : gmap string (list string) -> string.

(** [url.Values.Set]: the key gets the one value. *)
Definition Values_Set (key value : string) (v : gmap string (list string))
  : gmap string (list string) :=
  <[ key := [value] ]> v.

(** The [nil] that [Get] and [Delete] pass for the body is of no type
    that could be serialized. *)
Definition noBody : Marshaler Empty_set :=
  fun b => match b with end.

Section Verbs.

Context `{UnmarshalErr : Unmarshaler errResp}.
Context `{Encoder : QueryEncoder}.
Context {D : Type} `{UnmarshalD : Unmarshaler D}.

(** [Client.Get] *)
Definition Get (c : Client) (env : Env) (path : string)
           (params : gmap string (list string)) (result : option D)
  : M (outcome (option D * option error)) :=
  let path :=
    if (0 <? size params)%nat then (path ++ "?" ++ Encode params)%string
    else path in
  Request (MarshalB := noBody) c env "GET" path None result.

(** [Client.Delete] *)
Definition Delete (c : Client) (env : Env) (path : string) (result : option D)
  : M (outcome (option D * option error)) :=
  Request (MarshalB := noBody) c env "DELETE" path None result.

End Verbs.

Record Recording : Type := mkRecording {
  rec_URL : string;
  rec_Duration : Z;
  rec_CreatedAt : Time
}.

(** [struct { Data Recording }], the local [resp] of [GetRecording]. *)
Record recordingResp : Type := mkRecordingResp {
  rr_Data : Recording
}.

Definition zeroRecordingResp : recordingResp :=
  mkRecordingResp (mkRecording "" 0 0).

Record ListCallsParams : Type := mkListCallsParams {
  lp_Limit : Z;
  lp_Offset : Z;
  lp_Status : string;
  lp_FromDate : string;
  lp_ToDate : string
}.

(** [var resp PaginatedResponse[VoiceCall]]: the zero value. *)
Definition zeroCallPage : PaginatedResponse VoiceCall :=
  mkPaginatedResponse [] 0 0 0.

Module VoiceAPI.

Section Operations.

Context `{UnmarshalErr : Unmarshaler errResp}
        `{Encoder : QueryEncoder}
        `{UnmarshalCall : Unmarshaler callResp}
        `{UnmarshalRecording : Unmarshaler recordingResp}
        `{UnmarshalPage : Unmarshaler (PaginatedResponse VoiceCall)}.

(** [VoiceAPI.List]; [params] is [None] for a nil pointer. *)
Definition List (c : Client) (env : Env) (params : option ListCallsParams)
  : M (outcome (option (PaginatedResponse VoiceCall) * option error)) :=
  let params :=
    match params with
    | None => mkListCallsParams 20 0 "" "" ""
    | Some params => params
    end in
  let query : gmap string (list string) := ∅ in
  let query := Values_Set "limit" (Itoa (lp_Limit params)) query in
  let query := Values_Set "offset" (Itoa (lp_Offset params)) query in
  let query :=
    if negb (String.eqb (lp_Status params) "")
    then Values_Set "status" (lp_Status params) query else query in
  let query :=
    if negb (String.eqb (lp_FromDate params) "")
    then Values_Set "from_date" (lp_FromDate params) query else query in
  let query :=
    if negb (String.eqb (lp_ToDate params) "")
    then Values_Set "to_date" (lp_ToDate params) query else query in
  r <- Get c env "/calls" query (Some zeroCallPage) ;;
  match r with
  | Panics => ret Panics
  | Returns (_, Some err) => ret (Returns (None, Some err))
  | Returns (resp, None) => ret (Returns (Some (default zeroCallPage resp), None))
  end.

(** [VoiceAPI.Hangup] *)
Definition Hangup (c : Client) (env : Env) (callID : string)
  : M (outcome (option VoiceCall * option error)) :=
  r <- Delete c env ("/calls/" ++ callID) (Some zeroCallResp) ;;
  match r with
  | Panics => ret Panics
  | Returns (_, Some err) => ret (Returns (None, Some err))
  | Returns (resp, None) =>
      ret (Returns (Some (cr_Data (default zeroCallResp resp)), None))
  end.

(** [VoiceAPI.GetRecording] *)
Definition GetRecording (c : Client) (env : Env) (callID : string)
  : M (outcome (option Recording * option error)) :=
  r <- Get c env ("/calls/" ++ callID ++ "/recording") ∅
                     (Some zeroRecordingResp) ;;
  match r with
  | Panics => ret Panics
  | Returns (_, Some err) => ret (Returns (None, Some err))
  | Returns (resp, None) =>
      ret (Returns (Some (rr_Data (default zeroRecordingResp resp)), None))
  end.

(** [VoiceAPI.Get], placed last so that the name of [Client.Get] stays
    free for the operations above. *)
Definition Get (c : Client) (env : Env) (callID : string)
  : M (outcome (option VoiceCall * option error)) :=
  r <- Get c env ("/calls/" ++ callID) ∅ (Some zeroCallResp) ;;
  match r with
  | Panics => ret Panics
  | Returns (_, Some err) => ret (Returns (None, Some err))
  | Returns (resp, None) =>
      ret (Returns (Some (cr_Data (default zeroCallResp resp)), None))
  end.

End Operations.

End VoiceAPI.

(** [url.Values.Encode] as [net/url] has it, for the examples: the keys
    in byte order, each value written as key=value with both sides
    escaped as query components, the pairs joined by an ampersand. *)
Module Query.

Definition hexDigit (n : N) : ascii :=
  match String.get (N.to_nat n) "0123456789ABCDEF" with
  | Some a => a
  | None => "0"%char
  end.

Definition unreserved (a : ascii) : bool :=
  let n := N_of_ascii a in
  ((48 <=? n) && (n <=? 57) || (65 <=? n) && (n <=? 90)
   || (97 <=? n) && (n <=? 122) || (n =? 45) || (n =? 95) || (n =? 46)
   || (n =? 126))%N.

Fixpoint QueryEscape (s : string) : string :=
  match s with
  | EmptyString => EmptyString
  | String a rest =>
      if unreserved a then String a (QueryEscape rest)
      else if (N_of_ascii a =? 32)%N then String "+"%char (QueryEscape rest)
      else String "%"%char
             (String (hexDigit (N_of_ascii a / 16))
                (String (hexDigit (N_of_ascii a mod 16)) (QueryEscape rest)))
  end.

Fixpoint insertSorted (k : string) (keys : list string) : list string :=
  match keys with
  | [] => [k]
  | k' :: rest =>
      if String.leb k k' then k :: keys else k' :: insertSorted k rest
  end.

Definition sortedKeys (v : gmap string (list string)) : list string :=
  fold_right insertSorted [] (List.map fst (map_to_list v)).

Definition pairs (v : gmap string (list string)) (k : string) : list string :=
  List.map (fun value => (QueryEscape k ++ "=" ++ QueryEscape value)%string)
           (default [] (v !! k)).

Definition encode : QueryEncoder :=
  fun v => String.concat "&" (flat_map (pairs v) (sortedKeys v)).

End Query.

(** Decoders for the recording and for the page of calls, for examples
    whose responses are [htmlBody] or empty: they reject, as
    [encoding/json] rejects those bodies. *)
Definition unmarshalNoRecording : Unmarshaler recordingResp :=
  fun data v => (v, Some (LibError "json: syntax error")).

Definition unmarshalNoPage : Unmarshaler (PaginatedResponse VoiceCall) :=
  fun data v => (v, Some (LibError "json: syntax error")).

(** ** emails.go: listing *)

Record Email : Type := mkEmail {
  em_ID : string;
  em_Status : string;
  em_From : string;
  em_To : list string;
  em_Subject : string;
  em_HTML : string;
  em_Text : string;
  em_CC : list string;
  em_BCC : list string;
  em_ReplyTo : string;
  em_Tags : list string;
  em_Metadata : option (gmap string string);
  em_CreatedAt : Time;
  em_SentAt : option Time;
  em_DeliveredAt : option Time
}.

Record ListEmailsParams : Type := mkListEmailsParams {
  le_Limit : Z;
  le_Offset : Z;
  le_Status : string;
  le_FromDate : string;
  le_ToDate : string;
  le_Tags : list string
}.

(** [var resp PaginatedResponse[Email]]: the zero value. *)
Definition zeroEmailPage : PaginatedResponse Email :=
  mkPaginatedResponse [] 0 0 0.

Module EmailsAPI.

Section Operations.

Context `{UnmarshalErr : Unmarshaler errResp}
        `{Encoder : QueryEncoder}
        `{UnmarshalPage : Unmarshaler (PaginatedResponse Email)}.

(** [EmailsAPI.List]; [params] is [None] for a nil pointer. *)
Definition List (c : Client) (env : Env) (params : option ListEmailsParams)
  : M (outcome (option (PaginatedResponse Email) * option error)) :=
  let params :=
    match params with
    | None => mkListEmailsParams 20 0 "" "" "" []
    | Some params => params
    end in
  let query : gmap string (list string) := ∅ in
  let query := Values_Set "limit" (Itoa (le_Limit params)) query in
  let query := Values_Set "offset" (Itoa (le_Offset params)) query in
  let query :=
    if negb (String.eqb (le_Status params) "")
    then Values_Set "status" (le_Status params) query else query in
  let query :=
    if negb (String.eqb (le_FromDate params) "")
    then Values_Set "from_date" (le_FromDate params) query else query in
  let query :=
    if negb (String.eqb (le_ToDate params) "")
    then Values_Set "to_date" (le_ToDate params) query else query in
  let query :=
    if (0 <? length (le_Tags params))%nat
    then Values_Set "tags" (strings.Join (le_Tags params) ",") query
    else query in
  r <- Get c env "/emails" query (Some zeroEmailPage) ;;
  match r with
  | Panics => ret Panics
  | Returns (_, Some err) => ret (Returns (None, Some err))
  | Returns (resp, None) => ret (Returns (Some (default zeroEmailPage resp), None))
  end.

End Operations.

End EmailsAPI.

(** A decoder for the page of emails, for examples whose responses are
    [htmlBody] or empty. *)
Definition unmarshalNoEmailPage : Unmarshaler (PaginatedResponse Email) :=
  fun data v => (v, Some (LibError "json: syntax error")).

(** ** Debug output *)

Definition is_print (e : event) : bool :=
  match e with
  | EvPrintRequest _ _ _ | EvPrintResponse _ _ => true
  | _ => false
  end.

(** A trace without its debug lines. *)
Definition silent (t : list event) : list event :=
  List.filter (fun e => negb (is_print e)) t.

(** The options that the package provides. *)
Inductive providedOption : ClientOption -> Prop :=
| provided_WithBaseURL baseURL' : providedOption (WithBaseURL baseURL')
| provided_WithTimeout timeout : providedOption (WithTimeout timeout)
| provided_WithHTTPClient httpClient' : providedOption (WithHTTPClient httpClient')
| provided_WithDebug debug' : providedOption (WithDebug debug')
| provided_WithRateLimiter limiter : providedOption (WithRateLimiter limiter).

(** ** Notions used to state further properties of the executor *)

(** What a call that stops with its send number [k] does on the wire:
    sends 0 to [k], with the backoff sleep after each send before the
    last. *)
Definition schedule (k : nat) : list (nat + Z) :=
  (flat_map (fun i => [inl i; inr (backoff i)]) (seq 0 k) ++ [inl k])%list.

(** The events of the loop behind a schedule. *)
Definition scheduleEvents (req : HTTPRequest) (a k : nat) : list event :=
  (flat_map (fun i => [EvSend i req; EvSleep (backoff i)]) (seq a k)
     ++ [EvSend (a + k) req])%list.

(** The number of sends and the time slept in a trace. *)
Definition countSends (t : list event) : nat :=
  length (List.filter is_send t).

Definition totalSleep (t : list event) : Z :=
  fold_right Z.add 0 (sleeps t).

(** The prefixes under which [Request] wraps the errors of the packages
    it calls. *)
Definition wrapPrefixes : list string :=
  [ "rate limiter error: ";
    "failed to marshal request body: ";
    "failed to create request: ";
    "request failed: ";
    "failed to read response body: ";
    "failed to parse response: " ].

(** An event that is neither a send nor a sleep. *)
Definition quiet (e : event) : bool :=
  match e with
  | EvSend _ _ | EvSleep _ => false
  | _ => true
  end.

(** Two sends fail in the transport, every later one is answered by
    [resp]. *)
Definition flaky (resp : Response) : Env :=
  mkEnv None (fun _ _ _ => None)
        (fun n _ => if (n <? 2)%nat then inr (LibError "connection reset")
                    else inl resp).

(** A Go channel, which [json.Marshal] refuses whatever its state. *)
Inductive Chan : Type := mkChan.

Definition marshalChan : Marshaler Chan :=
  fun _ => ([], Some (LibError "json: unsupported type: chan int")).

(** * Properties *)

(** ** The writer monad *)

Arguments bind : simpl never.

Lemma trace_bind {A B} (m : M A) (k : A -> M B) :
  trace (bind m k) = (trace m ++ trace (k (value m)))%list.
Proof.
  unfold bind, trace, value. destruct m as [t1 a]; simpl.
  destruct (k a) as [t2 b]; reflexivity.
Qed.

Lemma value_bind {A B} (m : M A) (k : A -> M B) :
  value (bind m k) = value (k (value m)).
Proof.
  unfold bind, value. destruct m as [t1 a]; simpl.
  destruct (k a) as [t2 b]; reflexivity.
Qed.

Lemma wire_app (t1 t2 : list event) :
  wire (t1 ++ t2) = (wire t1 ++ wire t2)%list.
Proof.
  induction t1 as [|e t1 IH]; simpl; [reflexivity|].
  destruct e; simpl; rewrite ?IH; reflexivity.
Qed.

(** ** Pagination *)

Lemma wrap_small (z : Z) : GoInt.in_range z -> GoInt.wrap z = z.
Proof.
  unfold GoInt.in_range, GoInt.wrap, GoInt.MinInt, GoInt.MaxInt, GoInt.bits.
  intros H. rewrite Z.mod_small; lia.
Qed.

(** C4, as the code has it: when [offset + limit] does not exceed the
    largest [int], [HasMore] is true exactly when
    [offset + limit < total], and [NextOffset] is [offset + limit]. *)
Theorem pagination_no_overflow {T} (p : PaginatedResponse T) :
  0 <= Total p <= GoInt.MaxInt ->
  0 <= Limit p <= GoInt.MaxInt ->
  0 <= Offset p <= GoInt.MaxInt ->
  Offset p + Limit p <= GoInt.MaxInt ->
  (HasMore p = true <-> Offset p + Limit p < Total p)
  /\ NextOffset p = Offset p + Limit p.
Proof.
  intros Ht Hl Ho Hsum. unfold HasMore, NextOffset, GoInt.add.
  rewrite wrap_small.
  - split; [apply Z.ltb_lt | reflexivity].
  - unfold GoInt.in_range, GoInt.MinInt, GoInt.bits. lia.
Qed.

Lemma pagination_no_overflow_witness :
  let p := mkPaginatedResponse [1%nat; 2%nat] 45 20 20 in
  (HasMore p = true <-> Offset p + Limit p < Total p)
  /\ NextOffset p = Offset p + Limit p.
Proof.
  apply (pagination_no_overflow (mkPaginatedResponse [1%nat; 2%nat] 45 20 20));
    unfold GoInt.MaxInt, GoInt.bits; simpl; lia.
Defined.

(** C4 as stated fails once the sum leaves the range of [int]: with
    offset = limit = 2^62 and total = 0 the three counters are
    non-negative, the sum is not below the total, yet [HasMore] answers
    true and [NextOffset] is negative. *)
Lemma pagination_overflow_counterexample :
  let p := mkPaginatedResponse (@nil nat) 0 (2 ^ 62) (2 ^ 62) in
  0 <= Total p <= GoInt.MaxInt
  /\ 0 <= Limit p <= GoInt.MaxInt
  /\ 0 <= Offset p <= GoInt.MaxInt
  /\ ~ ((HasMore p = true <-> Offset p + Limit p < Total p)
        /\ NextOffset p = Offset p + Limit p).
Proof.
  simpl. unfold GoInt.MaxInt, GoInt.bits.
  repeat split; try lia.
  intros [[H _] _]. vm_compute in H. specialize (H eq_refl). discriminate H.
Qed.

(** ** Credential validation *)

Lemma substring_prefix_inv (p s : string) :
  substring 0 (String.length p) s = p -> starts_with s p.
Proof.
  revert s. induction p as [|a p IH]; intros s H.
  - exists s. reflexivity.
  - destruct s as [|b s]; simpl in H; [discriminate|].
    injection H as -> H. destruct (IH s H) as [rest ->].
    exists rest. reflexivity.
Qed.

Lemma substring_prefix_app (p rest : string) :
  substring 0 (String.length p) (p ++ rest) = p.
Proof.
  induction p as [|a p IH]; simpl.
  - destruct rest; reflexivity.
  - rewrite IH. reflexivity.
Qed.

Lemma length_app_le (p rest : string) :
  (String.length p <= String.length (p ++ rest))%nat.
Proof. induction p; simpl; lia. Qed.

Lemma HasPrefix_spec (s p : string) :
  strings.HasPrefix s p = true <-> starts_with s p.
Proof.
  unfold strings.HasPrefix. rewrite andb_true_iff, String.eqb_eq. split.
  - intros [_ H]. apply substring_prefix_inv, H.
  - intros [rest ->]. split.
    + apply Nat.leb_le, length_app_le.
    + apply substring_prefix_app.
Qed.

Lemma HasPrefix_reflect (s p : string) :
  reflect (starts_with s p) (strings.HasPrefix s p).
Proof.
  destruct (strings.HasPrefix s p) eqn:H; constructor.
  - apply HasPrefix_spec, H.
  - intros Hs. apply HasPrefix_spec in Hs. congruence.
Qed.

(** C5. [New] fails exactly for the keys that are empty or start with
    neither [ek_live_] nor [ek_test_], and succeeds exactly for the keys
    that start with one of the two, whatever the options. [New] takes no
    [Env] and yields no trace: nothing is sent before it answers. *)
Theorem New_validates_key (apiKey : string) (opts : list ClientOption) :
  ((exists err, New apiKey opts = (None, Some err))
   <-> (apiKey = ""
        \/ (~ starts_with apiKey "ek_live_" /\ ~ starts_with apiKey "ek_test_")))
  /\ ((exists c, New apiKey opts = (Some c, None))
      <-> (starts_with apiKey "ek_live_" \/ starts_with apiKey "ek_test_")).
Proof.
  unfold New.
  destruct (String.eqb_spec apiKey "") as [-> | Hne].
  - split; split.
    + intros _. left. reflexivity.
    + intros _. eexists. reflexivity.
    + intros [c H]. discriminate H.
    + intros [[rest H] | [rest H]]; discriminate H.
  - destruct (HasPrefix_reflect apiKey "ek_live_") as [Hl | Hl];
      destruct (HasPrefix_reflect apiKey "ek_test_") as [Ht | Ht]; simpl;
      (split; split;
       [ intros [err H]; first [discriminate H | right; tauto]
       | intros [He | [Hnl Hnt]]; first [contradiction | eexists; reflexivity]
       | intros [c H]; first [discriminate H | tauto]
       | intros [H | H]; first [contradiction | eexists; reflexivity] ]).
Qed.

Example New_live_key :
  New "ek_live_abc" [WithBaseURL "https://example.test/v1/"; WithDebug true]
  = (Some (mkClient "ek_live_abc" "https://example.test/v1"
                    (mkHTTPClient DefaultTimeout) (mkLimiter 100 10) true),
     None).
Proof. reflexivity. Qed.

Example New_bad_key :
  New "sk_live_abc" [] =
  (None, Some (NewError
     "invalid API key format: must start with 'ek_live_' or 'ek_test_'")).
Proof. reflexivity. Qed.

Example New_empty_key : New "" [] = (None, Some (NewError "API key is required")).
Proof. reflexivity. Qed.

(** ** The retry loop *)

Lemma filter_app_nil {A} (f : A -> bool) (l1 l2 : list A) :
  List.filter f l1 = [] -> List.filter f l2 = [] -> List.filter f (l1 ++ l2) = [].
Proof. intros H1 H2. rewrite List.filter_app, H1, H2. reflexivity. Qed.

Lemma doWithRetries_no_unmarshal env req attempts :
  List.filter is_unmarshal (trace (doWithRetries env req attempts)) = [].
Proof.
  induction attempts as [|attempt rest IH]; simpl; [reflexivity|].
  rewrite trace_bind. simpl.
  destruct (Do env attempt req) as [resp | err].
  - destruct (_ || _); [|reflexivity].
    destruct (attempt <? maxRetries)%nat; [|reflexivity].
    rewrite trace_bind. simpl. exact IH.
  - destruct (attempt <? maxRetries)%nat; [|reflexivity].
    rewrite trace_bind. simpl. exact IH.
Qed.

(** One iteration that is retried: a send, the backoff sleep, then the
    rest of the loop. *)
Lemma doWithRetries_retry env req attempt rest :
  retried (Do env attempt req) = true ->
  (attempt < maxRetries)%nat ->
  doWithRetries env req (attempt :: rest)
  = ((EvSend attempt req :: EvSleep (backoff attempt)
        :: trace (doWithRetries env req rest))%list,
     value (doWithRetries env req rest)).
Proof.
  intros Hr Hlt. apply Nat.ltb_lt in Hlt. simpl.
  destruct (Do env attempt req) as [resp | err]; simpl in Hr.
  - unfold retry_status in Hr. rewrite Hr, Hlt.
    unfold bind, emit, trace, value. simpl.
    destruct (doWithRetries env req rest); reflexivity.
  - rewrite Hlt. unfold bind, emit, trace, value. simpl.
    destruct (doWithRetries env req rest); reflexivity.
Qed.

(** An iteration that stops the loop: the last attempt, or a response
    whose status is not retried. *)
Lemma doWithRetries_stop env req attempt rest :
  (maxRetries <= attempt)%nat \/ retried (Do env attempt req) = false ->
  doWithRetries env req (attempt :: rest)
  = ([EvSend attempt req],
     match Do env attempt req with
     | inl resp => LoopBreak resp
     | inr err => LoopReturn (Errorf_w "request failed: " err)
     end).
Proof.
  intros H. simpl.
  destruct (Do env attempt req) as [resp | err]; simpl in H.
  - fold (retry_status (resp_StatusCode resp)).
    destruct (retry_status (resp_StatusCode resp)); [|reflexivity].
    destruct H as [H | H]; [|discriminate H].
    apply Nat.ltb_ge in H. rewrite H. reflexivity.
  - destruct H as [H | H]; [|discriminate H].
    apply Nat.ltb_ge in H. rewrite H. reflexivity.
Qed.



(** ** The executor *)

Section ExecutorFacts.

Context `{UnmarshalErr : Unmarshaler errResp}.
Context {B D : Type} `{MarshalB : Marshaler B} `{UnmarshalD : Unmarshaler D}.

Lemma Request_execute c env method path body bodyReader (result : option D) :
  Wait env = None ->
  marshalsTo body bodyReader ->
  Request c env method path body result
  = ((debugRequest c method path bodyReader
        ++ trace (execute c env method (baseURL c ++ path) bodyReader result))%list,
     value (execute c env method (baseURL c ++ path) bodyReader result)).
Proof.
  intros Hw Hm. unfold Request, marshalsTo, debugRequest in *. rewrite Hw.
  destruct body as [b|], bodyReader as [jsonBody|]; simpl in Hm;
    try discriminate Hm.
  - injection Hm as Hm. rewrite Hm.
    unfold bind, trace, value.
    destruct (execute _ _ _ _ _ _) as [t v].
    destruct (debug c); reflexivity.
  - destruct (execute _ _ _ _ _ _) as [t v]. reflexivity.
Qed.

Lemma execute_settles c env method reqURL bodyReader (result : option D) resp :
  NewRequestErr env method reqURL bodyReader = None ->
  settles env (mkHTTPRequest method reqURL bodyReader (headers c)) resp ->
  execute c env method reqURL bodyReader result
  = ((trace (doWithRetries env
               (mkHTTPRequest method reqURL bodyReader (headers c))
               (seq 0 (S maxRetries)))
        ++ trace (finish c resp result))%list,
     Returns (value (finish c resp result))).
Proof.
  intros Hn Hs. unfold execute, settles in *. rewrite Hn.
  unfold bind, trace, value in *.
  destruct (doWithRetries _ _ _) as [t exit]. simpl in Hs. subst exit.
  destruct (finish c resp result) as [t' r]. simpl.
  rewrite app_nil_r. reflexivity.
Qed.

Lemma execute_gives_up c env method reqURL bodyReader (result : option D) err :
  NewRequestErr env method reqURL bodyReader = None ->
  value (doWithRetries env
           (mkHTTPRequest method reqURL bodyReader (headers c))
           (seq 0 (S maxRetries))) = LoopReturn err ->
  execute c env method reqURL bodyReader result
  = (trace (doWithRetries env
              (mkHTTPRequest method reqURL bodyReader (headers c))
              (seq 0 (S maxRetries))),
     Returns (result, Some err)).
Proof.
  intros Hn Hs. unfold execute in *. rewrite Hn.
  unfold bind, trace, value in *.
  destruct (doWithRetries _ _ _) as [t exit]. simpl in Hs. subst exit.
  simpl. rewrite app_nil_r. reflexivity.
Qed.


(** [finish] on a status of 400 or more whose body was read. *)
Lemma finish_error c resp (result : option D) :
  resp_ReadErr resp = None ->
  400 <= resp_StatusCode resp ->
  value (finish c resp result)
  = (result,
     Some (value (handleError (resp_StatusCode resp) (resp_Body resp)
                              (resp_HeaderGet resp "x-request-id")))).
Proof.
  intros Hr Hs. unfold finish. rewrite Hr.
  apply Z.geb_le in Hs. rewrite value_bind, Hs, value_bind. reflexivity.
Qed.

End ExecutorFacts.

Lemma doWithRetries_break_retry_status env req attempts resp :
  value (doWithRetries env req attempts) = LoopBreak resp ->
  retry_status (resp_StatusCode resp) = true ->
  exists a, In a attempts /\ (maxRetries <= a)%nat /\ Do env a req = inl resp.
Proof.
  induction attempts as [|attempt rest IH]; intros Hv Hs.
  - discriminate Hv.
  - destruct (retried (Do env attempt req)) eqn:Hr;
      [destruct (Nat.lt_ge_cases attempt maxRetries) as [Hlt | Hge]|].
    + rewrite doWithRetries_retry in Hv by assumption.
      unfold value at 1 in Hv. cbn [snd] in Hv.
      destruct (IH Hv Hs) as [a [Hin H]]. exists a. split; [right; exact Hin | exact H].
    + rewrite doWithRetries_stop in Hv by (left; exact Hge).
      unfold value in Hv. cbn [snd] in Hv.
      destruct (Do env attempt req) as [r | e] eqn:Hd; [|discriminate Hv].
      injection Hv as ->. exists attempt. split; [left; reflexivity | auto].
    + rewrite doWithRetries_stop in Hv by (right; exact Hr).
      unfold value in Hv. cbn [snd] in Hv.
      destruct (Do env attempt req) as [r | e] eqn:Hd; [|discriminate Hv].
      injection Hv as ->. simpl in Hr. congruence.
Qed.

(** A call settles on a retried status only with its last attempt. *)
Lemma settles_retry_status_last env req resp :
  settles env req resp ->
  retry_status (resp_StatusCode resp) = true ->
  Do env maxRetries req = inl resp.
Proof.
  intros Hs Hr.
  destruct (doWithRetries_break_retry_status _ _ _ _ Hs Hr) as [a [Hin [Hle Hd]]].
  apply in_seq in Hin. replace maxRetries with a by lia. exact Hd.
Qed.

Section ExecutorClaims.

Context `{UnmarshalErr : Unmarshaler errResp}.
Context {B D : Type} `{MarshalB : Marshaler B} `{UnmarshalD : Unmarshaler D}.

Variables (c : Client) (env : Env) (method path : string).
Variables (body : option B) (bodyReader : option bytes) (result : option D).

Let req : HTTPRequest :=
  mkHTTPRequest method (baseURL c ++ path) bodyReader (headers c).

(** What the executor returns once it has settled on [resp]. *)
Lemma Request_settles resp :
  Wait env = None ->
  marshalsTo body bodyReader ->
  NewRequestErr env method (baseURL c ++ path) bodyReader = None ->
  settles env req resp ->
  Request c env method path body result
  = ((debugRequest c method path bodyReader
        ++ trace (doWithRetries env req (seq 0 (S maxRetries)))
        ++ trace (finish c resp result))%list,
     Returns (value (finish c resp result))).
Proof.
  intros Hw Hm Hn Hs.
  rewrite (Request_execute _ _ _ _ _ _ _ Hw Hm).
  rewrite (execute_settles _ _ _ _ _ _ _ Hn Hs). reflexivity.
Qed.

(** C1, as the code has it. A settled response with status 400 or more
    whose body decodes as an error envelope yields the typed error of
    its status: 400 a validation error with the detail map, 401 an
    authentication error, 404 a not-found error, 429 (reached only with
    the last attempt) a rate-limit error with the retry-after seconds,
    any other status the generic error with that status. The message is
    the envelope's, the request id is the [x-request-id] header. The
    machine code is the envelope's for 404 and for the generic error;
    for 400, 401 and 429 it is the fixed code of the kind. *)
Theorem error_classification resp er :
  Wait env = None ->
  marshalsTo body bodyReader ->
  NewRequestErr env method (baseURL c ++ path) bodyReader = None ->
  settles env req resp ->
  resp_ReadErr resp = None ->
  400 <= resp_StatusCode resp ->
  Unmarshal (resp_Body resp) zeroErrResp = (er, None) ->
  let status := resp_StatusCode resp in
  let requestID := resp_HeaderGet resp "x-request-id" in
  let e := er_Error er in
  exists err,
    value (Request c env method path body result) = Returns (result, Some err)
    /\ (status = 400 ->
        err = ValidationErr
                (mkValidationError
                   (mkEKDSendError (er_Message e) 400 "VALIDATION_ERROR" requestID)
                   (er_Details e)))
    /\ (status = 401 ->
        err = AuthenticationErr
                (mkAuthenticationError
                   (mkEKDSendError (er_Message e) 401 "AUTHENTICATION_ERROR"
                                   requestID)))
    /\ (status = 404 ->
        err = NotFoundErr
                (mkNotFoundError
                   (mkEKDSendError (er_Message e) 404 (er_Code e) requestID)))
    /\ (status = 429 ->
        Do env maxRetries req = inl resp
        /\ err = RateLimitErr
                   (mkRateLimitError
                      (mkEKDSendError (er_Message e) 429 "RATE_LIMIT_EXCEEDED"
                                      requestID)
                      (er_RetryAfter e)))
    /\ (status <> 400 -> status <> 401 -> status <> 404 -> status <> 429 ->
        err = EKDSendErr
                (mkEKDSendError (er_Message e) status (er_Code e) requestID)).
Proof.
  intros Hw Hm Hn Hs Hr Hge Hu status requestID e.
  rewrite (Request_settles _ Hw Hm Hn Hs). unfold value at 1. cbn [snd].
  rewrite (finish_error _ _ _ Hr Hge).
  eexists. split; [reflexivity|].
  unfold handleError. rewrite value_bind, Hu.
  fold status requestID e.
  split; [|split; [|split; [|split]]].
  - intros ->. reflexivity.
  - intros ->. reflexivity.
  - intros ->. reflexivity.
  - intros H429. split.
    + apply settles_retry_status_last; [exact Hs|].
      fold status. rewrite H429. reflexivity.
    + rewrite H429. reflexivity.
  - intros H0 H1 H4 H9.
    apply Z.eqb_neq in H0, H1, H4, H9. rewrite H0, H1, H4, H9. reflexivity.
Qed.

(** C3. A settled response with status 400 or more whose body does not
    decode (the empty body among them) yields the generic typed error
    with that status and the [x-request-id] header, not the decoding
    failure. *)
Theorem malformed_error_body resp er uerr :
  Wait env = None ->
  marshalsTo body bodyReader ->
  NewRequestErr env method (baseURL c ++ path) bodyReader = None ->
  settles env req resp ->
  resp_ReadErr resp = None ->
  400 <= resp_StatusCode resp ->
  Unmarshal (resp_Body resp) zeroErrResp = (er, Some uerr) ->
  value (Request c env method path body result)
  = Returns (result,
             Some (EKDSendErr
                     (mkEKDSendError "API request failed" (resp_StatusCode resp)
                                     "UNKNOWN_ERROR"
                                     (resp_HeaderGet resp "x-request-id")))).
Proof.
  intros Hw Hm Hn Hs Hr Hge Hu.
  rewrite (Request_settles _ Hw Hm Hn Hs). unfold value at 1. cbn [snd].
  rewrite (finish_error _ _ _ Hr Hge).
  unfold handleError. rewrite value_bind, Hu. reflexivity.
Qed.

End ExecutorClaims.

Section ExecutorFlow.

Context `{UnmarshalErr : Unmarshaler errResp}.
Context {B D : Type} `{MarshalB : Marshaler B} `{UnmarshalD : Unmarshaler D}.

Variables (c : Client) (env : Env) (method path : string).
Variables (body : option B) (bodyReader : option bytes) (result : option D).

Let req : HTTPRequest :=
  mkHTTPRequest method (baseURL c ++ path) bodyReader (headers c).

Lemma debugRequest_no_unmarshal :
  List.filter is_unmarshal (debugRequest c method path bodyReader) = [].
Proof.
  unfold debugRequest. destruct bodyReader; [destruct (debug c)|]; reflexivity.
Qed.

(** C6. A settled response with a status from 200 to 299 and an empty
    body makes the executor return no error and hand the destination
    back as it was; the trace holds no JSON decoding. *)
Theorem empty_success_body resp :
  Wait env = None ->
  marshalsTo body bodyReader ->
  NewRequestErr env method (baseURL c ++ path) bodyReader = None ->
  settles env req resp ->
  resp_ReadErr resp = None ->
  200 <= resp_StatusCode resp <= 299 ->
  resp_Body resp = [] ->
  value (Request c env method path body result) = Returns (result, None)
  /\ List.filter is_unmarshal (trace (Request c env method path body result)) = [].
Proof.
  intros Hw Hm Hn Hs Hr Hst Hb.
  rewrite (Request_settles _ _ _ _ _ _ _ _ Hw Hm Hn Hs).
  assert (Hf : finish c resp result
               = ((if debug c then [EvPrintResponse (resp_StatusCode resp) []]
                   else []), (result, None))).
  { unfold finish. rewrite Hr, Hb.
    assert (Hlt : (resp_StatusCode resp >=? 400) = false)
      by (rewrite Z.geb_leb; apply Z.leb_gt; lia).
    rewrite Hlt. destruct (debug c), result; reflexivity. }
  rewrite Hf. unfold value, trace. cbn [fst snd]. split; [reflexivity|].
  apply filter_app_nil; [apply debugRequest_no_unmarshal|].
  apply filter_app_nil; [apply doWithRetries_no_unmarshal|].
  destruct (debug c); reflexivity.
Qed.

(** C9, as the code has it. A settled response with a status below 400
    (3xx included) is never classified as an API error. Without a
    destination, or with an empty body, the executor returns no error
    and leaves the destination alone; otherwise it decodes the body
    into the destination and returns no error exactly when the decoder
    returns none, the decoder's error being wrapped as a parse failure. *)
Theorem below_400_is_decoded resp :
  Wait env = None ->
  marshalsTo body bodyReader ->
  NewRequestErr env method (baseURL c ++ path) bodyReader = None ->
  settles env req resp ->
  resp_ReadErr resp = None ->
  resp_StatusCode resp < 400 ->
  (result = None \/ resp_Body resp = [] ->
   value (Request c env method path body result) = Returns (result, None))
  /\ (forall d, result = Some d -> resp_Body resp <> [] ->
      value (Request c env method path body result)
      = Returns (Some (fst (Unmarshal (resp_Body resp) d)),
                 option_map (Errorf_w "failed to parse response: ")
                            (snd (Unmarshal (resp_Body resp) d)))).
Proof.
  intros Hw Hm Hn Hs Hr Hst.
  rewrite (Request_settles _ _ _ _ _ _ _ _ Hw Hm Hn Hs).
  unfold value at 1 2. cbn [snd].
  assert (Hlt : (resp_StatusCode resp >=? 400) = false)
    by (rewrite Z.geb_leb; apply Z.leb_gt; lia).
  unfold finish. rewrite Hr, value_bind, Hlt. split.
  - intros [-> | Hb]; [reflexivity|].
    rewrite Hb. destruct result; reflexivity.
  - intros d -> Hb. destruct (resp_Body resp) as [|b0 bs]; [contradiction|].
    cbn [length Nat.ltb Nat.leb]. rewrite value_bind.
    destruct (Unmarshal (b0 :: bs) d) as [d' [err|]]; reflexivity.
Qed.

(** C7. When waiting for the permit fails (the caller's cancellation
    fired first), the executor returns at once the failure of the wait
    wrapped as a rate limiter error: the trace is empty, so nothing was
    sent and nothing was retried. The error is no API error: it has no
    base struct, none of the four type tests accepts it, and the error
    classification never produces it. *)
Theorem rate_limiter_cancelled werr :
  Wait env = Some werr ->
  let err := Errorf_w "rate limiter error: " werr in
  Request c env method path body result = ([], Returns (result, Some err))
  /\ Unwrap err = Some werr
  /\ base err = None
  /\ IsAuthenticationError err = false
  /\ IsValidationError err = false
  /\ IsRateLimitError err = false
  /\ IsNotFoundError err = false
  /\ (forall statusCode data requestID,
        value (handleError statusCode data requestID) <> err).
Proof.
  intros Hw err. unfold Request. rewrite Hw.
  repeat (split; [reflexivity|]).
  intros statusCode data requestID. unfold handleError.
  rewrite value_bind.
  destruct (Unmarshal data zeroErrResp) as [er [uerr|]]; [discriminate|].
  repeat (match goal with |- context [if ?b then _ else _] => destruct b end);
    discriminate.
Qed.


End ExecutorFlow.

(** ** Voice calls *)

Lemma doWithRetries_sends env req attempts attempt r :
  In (EvSend attempt r) (trace (doWithRetries env req attempts)) -> r = req.
Proof.
  induction attempts as [|a rest IH]; simpl; [intros []|].
  rewrite trace_bind. simpl. intros [H | H]; [congruence|].
  destruct (Do env a req) as [resp | err].
  - destruct (_ || _); [|destruct H].
    destruct (a <? maxRetries)%nat; [|destruct H].
    rewrite trace_bind in H. simpl in H.
    destruct H as [H | H]; [discriminate H | exact (IH H)].
  - destruct (a <? maxRetries)%nat; [|destruct H].
    rewrite trace_bind in H. simpl in H.
    destruct H as [H | H]; [discriminate H | exact (IH H)].
Qed.

Section SendsOfRequest.

Context `{UnmarshalErr : Unmarshaler errResp}.
Context {B D : Type} `{MarshalB : Marshaler B} `{UnmarshalD : Unmarshaler D}.

Lemma handleError_sends statusCode data requestID attempt r :
  ~ In (EvSend attempt r) (trace (handleError statusCode data requestID)).
Proof.
  unfold handleError. rewrite trace_bind. simpl.
  destruct (Unmarshal data zeroErrResp) as [er [uerr|]];
    repeat (match goal with |- context [if ?b then _ else _] => destruct b end);
    simpl; intros [H | []]; discriminate H.
Qed.

Lemma finish_sends c resp (result : option D) attempt r :
  ~ In (EvSend attempt r) (trace (finish c resp result)).
Proof.
  unfold finish. destruct (resp_ReadErr resp); [intros []|].
  rewrite trace_bind. intros H. apply in_app_or in H. destruct H as [H | H].
  - destruct (debug c); simpl in H; [destruct H as [H | []]; discriminate H | destruct H].
  - destruct (resp_StatusCode resp >=? 400).
    + rewrite trace_bind in H. apply in_app_or in H. destruct H as [H | []].
      exact (handleError_sends _ _ _ _ _ H).
    + destruct result as [d|]; [|destruct H].
      destruct (0 <? length (resp_Body resp))%nat; [|destruct H].
      rewrite trace_bind in H. simpl in H. destruct H as [H | H]; [discriminate H|].
      destruct (Unmarshal (resp_Body resp) d) as [d' [err|]]; destruct H.
Qed.

Lemma execute_sends c env method reqURL bodyReader (result : option D) attempt r :
  In (EvSend attempt r) (trace (execute c env method reqURL bodyReader result)) ->
  r = mkHTTPRequest method reqURL bodyReader (headers c).
Proof.
  unfold execute. destruct (NewRequestErr env method reqURL bodyReader); [intros []|].
  rewrite trace_bind. intros H. apply in_app_or in H. destruct H as [H | H].
  - exact (doWithRetries_sends _ _ _ _ _ H).
  - destruct (value (doWithRetries _ _ _)); try destruct H.
    rewrite trace_bind in H. apply in_app_or in H. destruct H as [H | []].
    destruct (finish_sends _ _ _ _ _ H).
Qed.

(** Every send of a call carries the serialized body of that call. *)
Lemma Request_sends c env method path (body : option B) (result : option D)
      attempt r :
  In (EvSend attempt r) (trace (Request c env method path body result)) ->
  exists bodyReader,
    marshalsTo body bodyReader
    /\ r = mkHTTPRequest method (baseURL c ++ path) bodyReader (headers c).
Proof.
  unfold Request, marshalsTo. destruct (Wait env); [intros []|].
  destruct body as [b|].
  - destruct (Marshal b) as [jsonBody [err|]] eqn:Hm; [intros []|].
    rewrite trace_bind. intros H. apply in_app_or in H. destruct H as [H | H].
    + destruct (debug c); simpl in H; [destruct H as [H | []]; discriminate H | destruct H].
    + exists (Some jsonBody). simpl. rewrite Hm. split; [reflexivity|].
      exact (execute_sends _ _ _ _ _ _ _ _ H).
  - intros H. exists None. split; [reflexivity|].
    exact (execute_sends _ _ _ _ _ _ _ _ H).
Qed.

End SendsOfRequest.

Section VoiceClaims.

Context `{UnmarshalErr : Unmarshaler errResp}
        `{MarshalParams : Marshaler CreateCallParams}
        `{UnmarshalCall : Unmarshaler callResp}.

Variables (c : Client) (env : Env).

Lemma check_passes params :
  TTSMessage params <> "" \/ AudioURL params <> "" ->
  String.eqb (TTSMessage params) "" && String.eqb (AudioURL params) "" = false.
Proof.
  intros [H | H]; apply String.eqb_neq in H; rewrite H;
    [reflexivity | apply andb_false_r].
Qed.

Lemma Create_delegates params :
  TTSMessage params <> "" \/ AudioURL params <> "" ->
  trace (Create c env params)
  = trace (Post c env "/calls" (Some (setDefaults params)) (Some zeroCallResp))
  /\ value (Create c env params)
     = (setDefaults params,
        match value (Post c env "/calls" (Some (setDefaults params))
                          (Some zeroCallResp)) with
        | Panics => Panics
        | Returns (_, Some err) => Returns (None, Some err)
        | Returns (resp, None) =>
            Returns (Some (cr_Data (default zeroCallResp resp)), None)
        end).
Proof.
  intros H. unfold Create. rewrite (check_passes _ H).
  rewrite trace_bind, value_bind.
  destruct (value (Post _ _ _ _ _)) as [[resp [err|]]|]; simpl;
    rewrite app_nil_r; split; reflexivity.
Qed.

(** C8. With both the message and the audio source empty, [Create]
    returns an error and its trace is empty: nothing was sent. With one
    of the two supplied, the call is handed to the executor as a POST
    of the parameters to /calls: the trace of [Create] is the trace of
    that request, every send in it is that request, and the result is
    the executor's, unwrapped from its data envelope. *)
Theorem Create_requires_message_or_audio params :
  (TTSMessage params = "" /\ AudioURL params = "" ->
   Create c env params
   = ([], (params,
           Returns (None,
                    Some (NewError "either TTSMessage or AudioURL is required")))))
  /\ (TTSMessage params <> "" \/ AudioURL params <> "" ->
      let post :=
        Request c env "POST" "/calls" (Some (setDefaults params))
                (Some zeroCallResp) in
      trace (Create c env params) = trace post
      /\ snd (value (Create c env params))
         = match value post with
           | Panics => Panics
           | Returns (_, Some err) => Returns (None, Some err)
           | Returns (resp, None) =>
               Returns (Some (cr_Data (default zeroCallResp resp)), None)
           end
      /\ forall attempt r,
           In (EvSend attempt r) (trace (Create c env params)) ->
           req_Method r = "POST" /\ req_URL r = (baseURL c ++ "/calls")%string).
Proof.
  split.
  - intros [Ht Ha]. unfold Create. rewrite Ht, Ha. reflexivity.
  - intros H post. destruct (Create_delegates _ H) as [Ht Hv].
    unfold Post in Ht, Hv. fold post in Ht, Hv.
    split; [exact Ht | split; [rewrite Hv; reflexivity|]].
    intros attempt r Hin. rewrite Ht in Hin.
    destruct (Request_sends _ _ _ _ _ _ _ _ Hin) as [br [_ ->]].
    split; reflexivity.
Qed.


End VoiceClaims.

(** ** The claims on concrete calls *)

Lemma error_classification_witness :
  value (Cases.get (Scenario.answering (Scenario.response 400 Scenario.envelopeBody))
                   (Some false))
  = Returns
      (Some false,
       Some (ValidationErr
               (mkValidationError
                  (mkEKDSendError "invalid recipient" 400 "VALIDATION_ERROR" "req_42")
                  (Some {[ "to" := JString "invalid format" ]})))).
Proof.
  destruct (@error_classification
              Scenario.unmarshalErrResp unit bool Scenario.marshalUnit
              Scenario.unmarshalBool Scenario.client
              (Scenario.answering (Scenario.response 400 Scenario.envelopeBody))
              "GET" "/emails/em_1" None None (Some false)
              (Scenario.response 400 Scenario.envelopeBody) Scenario.envelope)
    as [err [Hv [H400 _]]].
  - reflexivity.
  - reflexivity.
  - reflexivity.
  - reflexivity.
  - reflexivity.
  - simpl. lia.
  - vm_compute. reflexivity.
  - unfold Cases.get. rewrite Hv, (H400 eq_refl). reflexivity.
Defined.

(** C1 as stated fails on the machine code: for status 400 the envelope's
    code [invalid_recipient] is decoded, and the error returned carries
    [VALIDATION_ERROR] instead. *)
Lemma error_code_counterexample :
  Unmarshal (Unmarshaler := Scenario.unmarshalErrResp)
            Scenario.envelopeBody zeroErrResp
  = (Scenario.envelope, None)
  /\ er_Code (er_Error Scenario.envelope) = "invalid_recipient"
  /\ exists e,
       value (Cases.get
                (Scenario.answering (Scenario.response 400 Scenario.envelopeBody))
                (Some false))
       = Returns (Some false, Some (ValidationErr e))
       /\ Code (val_EKDSendError e) = "VALIDATION_ERROR"
       /\ Code (val_EKDSendError e) <> er_Code (er_Error Scenario.envelope).
Proof.
  split; [vm_compute; reflexivity|]. split; [reflexivity|].
  eexists. split; [vm_compute; reflexivity|].
  split; [reflexivity | discriminate].
Qed.

Lemma malformed_error_body_witness :
  value (Cases.get (Scenario.answering (Scenario.response 503 [])) (Some false))
  = Returns
      (Some false,
       Some (EKDSendErr
               (mkEKDSendError "API request failed" 503 "UNKNOWN_ERROR" "req_42"))).
Proof.
  apply (@malformed_error_body
           Scenario.unmarshalErrResp unit bool Scenario.marshalUnit
           Scenario.unmarshalBool Scenario.client
           (Scenario.answering (Scenario.response 503 []))
           "GET" "/emails/em_1" None None (Some false)
           (Scenario.response 503 []) zeroErrResp
           (LibError "json: syntax error")).
  - reflexivity.
  - reflexivity.
  - reflexivity.
  - reflexivity.
  - reflexivity.
  - simpl. lia.
  - vm_compute. reflexivity.
Defined.

Example malformed_error_body_html :
  value (Cases.get (Scenario.answering (Scenario.response 403 Scenario.htmlBody))
                   None)
  = Returns
      (None,
       Some (EKDSendErr
               (mkEKDSendError "API request failed" 403 "UNKNOWN_ERROR" "req_42"))).
Proof. vm_compute. reflexivity. Qed.

Lemma empty_success_body_witness :
  value (Cases.get (Scenario.answering (Scenario.response 204 [])) (Some false))
  = Returns (Some false, None)
  /\ List.filter is_unmarshal
       (trace (Cases.get (Scenario.answering (Scenario.response 204 []))
                         (Some false))) = [].
Proof.
  apply (@empty_success_body
           Scenario.unmarshalErrResp unit bool Scenario.marshalUnit
           Scenario.unmarshalBool Scenario.client
           (Scenario.answering (Scenario.response 204 []))
           "GET" "/emails/em_1" None None (Some false)
           (Scenario.response 204 [])).
  - reflexivity.
  - reflexivity.
  - reflexivity.
  - reflexivity.
  - reflexivity.
  - simpl. lia.
  - reflexivity.
Defined.

Lemma below_400_is_decoded_witness :
  value (Cases.get
           (Scenario.answering (Scenario.response 302 (list_byte_of_string "true")))
           (Some false))
  = Returns (Some true, None).
Proof.
  destruct (@below_400_is_decoded
              Scenario.unmarshalErrResp unit bool Scenario.marshalUnit
              Scenario.unmarshalBool Scenario.client
              (Scenario.answering
                 (Scenario.response 302 (list_byte_of_string "true")))
              "GET" "/emails/em_1" None None (Some false)
              (Scenario.response 302 (list_byte_of_string "true")))
    as [_ Hdec].
  - reflexivity.
  - reflexivity.
  - reflexivity.
  - reflexivity.
  - reflexivity.
  - simpl. lia.
  - unfold Cases.get. rewrite (Hdec false eq_refl); [reflexivity|].
    simpl. discriminate.
Defined.

(** C9 as stated fails when the body of a success does not decode:
    status 200 with an HTML body and a destination makes the executor
    return a parse failure. *)
Lemma below_400_counterexample :
  resp_StatusCode (Scenario.response 200 Scenario.htmlBody) < 400
  /\ value (Cases.get (Scenario.answering (Scenario.response 200 Scenario.htmlBody))
                      (Some false))
     = Returns
         (Some false,
          Some (WrapError "failed to parse response: "
                  (LibError "json: input is not a boolean"))).
Proof. split; [simpl; lia | vm_compute; reflexivity]. Qed.

Lemma rate_limiter_cancelled_witness :
  Cases.get Scenario.cancelled (Some false)
  = ([], Returns (Some false,
                  Some (WrapError "rate limiter error: "
                                  (LibError "context canceled")))).
Proof.
  apply (@rate_limiter_cancelled
           Scenario.unmarshalErrResp unit bool Scenario.marshalUnit
           Scenario.unmarshalBool Scenario.client Scenario.cancelled
           "GET" "/emails/em_1" None (Some false) (LibError "context canceled")).
  reflexivity.
Defined.


Example retries_exhausted_503 :
  Cases.get (Scenario.answering (Scenario.response 503 Scenario.htmlBody)) None
  = ([EvSend 0 Cases.getRequest; EvSleep 1000000000;
      EvSend 1 Cases.getRequest; EvSleep 2000000000;
      EvSend 2 Cases.getRequest; EvSleep 4000000000;
      EvSend 3 Cases.getRequest; EvUnmarshal Scenario.htmlBody],
     Returns
       (None,
        Some (EKDSendErr
                (mkEKDSendError "API request failed" 503 "UNKNOWN_ERROR" "req_42")))).
Proof. vm_compute. reflexivity. Qed.

Lemma Create_requires_message_or_audio_witness :
  Cases.create (Scenario.answering (Scenario.response 200 Scenario.callBody))
               Scenario.silentCall
  = ([], (Scenario.silentCall,
          Returns (None,
                   Some (NewError "either TTSMessage or AudioURL is required")))).
Proof.
  apply (@Create_requires_message_or_audio
           Scenario.unmarshalErrResp Scenario.marshalCallParams
           Scenario.unmarshalCallResp Scenario.client
           (Scenario.answering (Scenario.response 200 Scenario.callBody))
           Scenario.silentCall).
  split; reflexivity.
Defined.

Example Create_audio_call :
  exists jsonBody,
    Marshal (Marshaler := Scenario.marshalCallParams)
            (setDefaults Scenario.audioCall) = (jsonBody, None)
    /\ Cases.create (Scenario.answering (Scenario.response 200 Scenario.callBody))
                    Scenario.audioCall
       = ([EvSend 0 (mkHTTPRequest "POST" (DefaultBaseURL ++ "/calls")
                                   (Some jsonBody) (headers Scenario.client));
           EvUnmarshal Scenario.callBody],
          (setDefaults Scenario.audioCall,
           Returns (Some Scenario.queuedCall, None))).
Proof. eexists. split; vm_compute; reflexivity. Qed.



(** * Further properties *)

(** ** Error classification *)

Section Classification.

Context `{UnmarshalErr : Unmarshaler errResp}.

(** X1. Whatever the body, [handleError] returns an API error, and that
    error carries the status code and the request id it was given. *)
Theorem handleError_carries_status_and_id statusCode data requestID :
  exists e,
    base (value (handleError statusCode data requestID)) = Some e
    /\ StatusCode e = statusCode
    /\ RequestID e = requestID.
Proof.
  unfold handleError. rewrite value_bind.
  destruct (Unmarshal data zeroErrResp) as [er [uerr|]].
  - eexists. split; [reflexivity | split; reflexivity].
  - destruct (Z.eqb_spec statusCode 400) as [-> | H0];
      [eexists; split; [reflexivity | split; reflexivity]|].
    destruct (Z.eqb_spec statusCode 401) as [-> | H1];
      [eexists; split; [reflexivity | split; reflexivity]|].
    destruct (Z.eqb_spec statusCode 404) as [-> | H4];
      [eexists; split; [reflexivity | split; reflexivity]|].
    destruct (Z.eqb_spec statusCode 429) as [-> | H9];
      eexists; split; [reflexivity | split; reflexivity | reflexivity
                       | split; reflexivity].
Qed.

(** X2. The four type tests read the classification back exactly: an
    error of [handleError] passes the validation test just when the body
    decoded and the status is 400, and likewise the authentication test
    for 401, the not-found test for 404 and the rate-limit test for 429.
    With an undecodable body none of the tests passes. *)
Theorem type_tests_exact statusCode data requestID :
  let err := value (handleError statusCode data requestID) in
  let decoded := snd (Unmarshal data zeroErrResp) = None in
  (IsValidationError err = true <-> decoded /\ statusCode = 400)
  /\ (IsAuthenticationError err = true <-> decoded /\ statusCode = 401)
  /\ (IsNotFoundError err = true <-> decoded /\ statusCode = 404)
  /\ (IsRateLimitError err = true <-> decoded /\ statusCode = 429).
Proof.
  unfold handleError. rewrite value_bind.
  destruct (Unmarshal data zeroErrResp) as [er [uerr|]]; cbn [snd].
  - cbn. repeat split; try discriminate; intros [H _]; discriminate H.
  - destruct (Z.eqb_spec statusCode 400) as [-> | H0];
      [cbn; repeat split; try discriminate; try (intros [_ H]; discriminate H)|].
    destruct (Z.eqb_spec statusCode 401) as [-> | H1];
      [cbn; repeat split; try discriminate; try (intros [_ H]; discriminate H)|].
    destruct (Z.eqb_spec statusCode 404) as [-> | H4];
      [cbn; repeat split; try discriminate; try (intros [_ H]; discriminate H)|].
    destruct (Z.eqb_spec statusCode 429) as [-> | H9];
      cbn; repeat split; try discriminate; try (intros [_ H]; discriminate H);
      intros [_ H]; contradiction.
Qed.

End Classification.

(** ** The shape of the retries *)

Lemma scheduleEvents_S req a k :
  scheduleEvents req a (S k)
  = EvSend a req :: EvSleep (backoff a) :: scheduleEvents req (S a) k.
Proof.
  unfold scheduleEvents. simpl. rewrite Nat.add_succ_r. reflexivity.
Qed.

Lemma doWithRetries_schedule env req k :
  forall a rest,
    (forall i, (a <= i < a + k)%nat -> retried (Do env i req) = true) ->
    (a + k <= maxRetries)%nat ->
    (maxRetries <= a + k)%nat \/ retried (Do env (a + k) req) = false ->
    doWithRetries env req (seq a (S k) ++ rest)
    = (scheduleEvents req a k,
       match Do env (a + k) req with
       | inl resp => LoopBreak resp
       | inr err => LoopReturn (Errorf_w "request failed: " err)
       end).
Proof.
  induction k as [|k IH]; intros a rest Hretry Hle Hstop.
  - unfold scheduleEvents. cbn [seq app flat_map].
    rewrite Nat.add_0_r in *.
    rewrite doWithRetries_stop by exact Hstop. reflexivity.
  - change (seq a (S (S k)) ++ rest)%list
      with (a :: (seq (S a) (S k) ++ rest))%list.
    rewrite doWithRetries_retry by (try apply Hretry; lia).
    rewrite scheduleEvents_S.
    rewrite (IH (S a) rest).
    + unfold trace, value. cbn [fst snd]. rewrite Nat.add_succ_r. reflexivity.
    + intros i Hi. apply Hretry. lia.
    + lia.
    + rewrite Nat.add_succ_r in Hstop. exact Hstop.
Qed.

(** The loop of every call stops with some send [k] of 0 to 3, the
    earlier sends having been retried. *)
Lemma doWithRetries_shape env req :
  exists k,
    (k <= maxRetries)%nat
    /\ (forall i, (i < k)%nat -> retried (Do env i req) = true)
    /\ ((maxRetries <= k)%nat \/ retried (Do env k req) = false)
    /\ doWithRetries env req (seq 0 (S maxRetries))
       = (scheduleEvents req 0 k,
          match Do env k req with
          | inl resp => LoopBreak resp
          | inr err => LoopReturn (Errorf_w "request failed: " err)
          end).
Proof.
  assert (Hk : exists k, (k <= maxRetries)%nat
                 /\ (forall i, (i < k)%nat -> retried (Do env i req) = true)
                 /\ ((maxRetries <= k)%nat \/ retried (Do env k req) = false)).
  { unfold maxRetries.
    destruct (retried (Do env 0%nat req)) eqn:H0;
      [|exists 0%nat; repeat split; [lia | intros i Hi; lia | right; exact H0]].
    destruct (retried (Do env 1%nat req)) eqn:H1;
      [|exists 1%nat; repeat split;
        [lia | intros i Hi; replace i with 0%nat by lia; exact H0
         | right; exact H1]].
    destruct (retried (Do env 2%nat req)) eqn:H2;
      [|exists 2%nat; repeat split;
        [lia
         | intros i Hi; destruct i as [|[|i]]; [exact H0 | exact H1 | lia]
         | right; exact H2]].
    exists 3%nat. repeat split; [lia | | left; lia].
    intros i Hi. destruct i as [|[|[|i]]]; [exact H0 | exact H1 | exact H2 | lia]. }
  destruct Hk as [k [Hle [Hretry Hstop]]]. exists k.
  split; [exact Hle | split; [exact Hretry | split; [exact Hstop|]]].
  replace (seq 0 (S maxRetries))
    with (seq 0 (S k) ++ seq (S k) (maxRetries - k))%list.
  - apply (doWithRetries_schedule env req k 0 _).
    + intros i Hi. apply Hretry. lia.
    + simpl. exact Hle.
    + exact Hstop.
  - rewrite <- seq_app. f_equal. lia.
Qed.

Lemma wire_scheduleEvents req a k :
  wire (scheduleEvents req a k)
  = (flat_map (fun i => [inl i; inr (backoff i)]) (seq a k) ++ [inl (a + k)%nat])%list.
Proof.
  revert a. induction k as [|k IH]; intros a.
  - unfold scheduleEvents. simpl. reflexivity.
  - rewrite scheduleEvents_S. cbn [wire]. rewrite IH. simpl.
    rewrite Nat.add_succ_r. reflexivity.
Qed.

Lemma wire_quiet (t : list event) :
  forallb quiet t = true -> wire t = [].
Proof.
  induction t as [|e t IH]; [reflexivity|]. simpl.
  intros H. apply andb_true_iff in H. destruct H as [He Ht].
  destruct e; try discriminate He; simpl; exact (IH Ht).
Qed.

Lemma countSends_wire (t : list event) :
  countSends t = length (List.filter (fun x => match x with inl _ => true | inr _ => false end)
                                     (wire t)).
Proof.
  unfold countSends. induction t as [|e t IH]; [reflexivity|].
  destruct e; simpl; rewrite ?IH; reflexivity.
Qed.

Lemma totalSleep_wire (t : list event) :
  totalSleep t
  = fold_right Z.add 0
      (flat_map (fun x => match x with inl _ => [] | inr d => [d] end) (wire t)).
Proof.
  unfold totalSleep. induction t as [|e t IH]; [reflexivity|].
  destruct e; simpl; rewrite ?IH; reflexivity.
Qed.

Section Shape.

Context `{UnmarshalErr : Unmarshaler errResp}.
Context {B D : Type} `{MarshalB : Marshaler B} `{UnmarshalD : Unmarshaler D}.

Lemma handleError_trace statusCode data requestID :
  trace (handleError statusCode data requestID) = [EvUnmarshal data].
Proof.
  unfold handleError. rewrite trace_bind. simpl.
  destruct (Unmarshal data zeroErrResp) as [er [uerr|]];
    repeat (match goal with |- context [if ?b then _ else _] => destruct b end);
    reflexivity.
Qed.

Lemma handleError_base statusCode data requestID :
  exists e,
    base (value (handleError statusCode data requestID)) = Some e
    /\ StatusCode e = statusCode
    /\ RequestID e = requestID.
Proof.
  unfold handleError. rewrite value_bind.
  destruct (Unmarshal data zeroErrResp) as [er [uerr|]];
    [eexists; split; [reflexivity | split; reflexivity]|].
  destruct (Z.eqb_spec statusCode 400) as [-> | H0];
    [eexists; split; [reflexivity | split; reflexivity]|].
  destruct (Z.eqb_spec statusCode 401) as [-> | H1];
    [eexists; split; [reflexivity | split; reflexivity]|].
  destruct (Z.eqb_spec statusCode 404) as [-> | H4];
    [eexists; split; [reflexivity | split; reflexivity]|].
  destruct (Z.eqb_spec statusCode 429) as [-> | H9];
    eexists; split; [reflexivity | split; reflexivity | reflexivity
                     | split; reflexivity].
Qed.

Lemma finish_quiet c resp (result : option D) :
  forallb quiet (trace (finish c resp result)) = true.
Proof.
  unfold finish. destruct (resp_ReadErr resp); [reflexivity|].
  rewrite trace_bind, forallb_app. apply andb_true_iff. split.
  - destruct (debug c); reflexivity.
  - destruct (resp_StatusCode resp >=? 400).
    + rewrite trace_bind, handleError_trace. reflexivity.
    + destruct result as [d|]; [|reflexivity].
      destruct (0 <? length (resp_Body resp))%nat; [|reflexivity].
      rewrite trace_bind. simpl.
      destruct (Unmarshal (resp_Body resp) d) as [d' [err|]]; reflexivity.
Qed.

Lemma debugRequest_quiet c method path bodyReader :
  forallb quiet (debugRequest c method path bodyReader) = true.
Proof.
  unfold debugRequest. destruct bodyReader; [destruct (debug c)|]; reflexivity.
Qed.

(** The two ways of a call: it fails before anything is sent, or it runs
    the loop up to some send [k] and ends on a transport failure or on a
    response. *)
Lemma Request_cases c env method path (body : option B) (result : option D) :
  (forallb quiet (trace (Request c env method path body result)) = true
   /\ exists prefix inner,
        In prefix ["rate limiter error: "; "failed to marshal request body: ";
                   "failed to create request: "]
        /\ value (Request c env method path body result)
           = Returns (result, Some (WrapError prefix inner)))
  \/ exists bodyReader k,
       let req := mkHTTPRequest method (baseURL c ++ path) bodyReader (headers c) in
       marshalsTo body bodyReader
       /\ (k <= maxRetries)%nat
       /\ match Do env k req with
          | inr err =>
              Request c env method path body result
              = ((debugRequest c method path bodyReader
                    ++ scheduleEvents req 0 k)%list,
                 Returns (result, Some (WrapError "request failed: " err)))
          | inl resp =>
              Request c env method path body result
              = ((debugRequest c method path bodyReader
                    ++ scheduleEvents req 0 k
                    ++ trace (finish c resp result))%list,
                 Returns (value (finish c resp result)))
          end.
Proof.
  assert (Hex : forall bodyReader,
             Wait env = None -> marshalsTo body bodyReader ->
             (forallb quiet (trace (Request c env method path body result)) = true
              /\ exists prefix inner,
                   In prefix ["rate limiter error: ";
                              "failed to marshal request body: ";
                              "failed to create request: "]
                   /\ value (Request c env method path body result)
                      = Returns (result, Some (WrapError prefix inner)))
             \/ exists k,
                  let req := mkHTTPRequest method (baseURL c ++ path) bodyReader
                                           (headers c) in
                  (k <= maxRetries)%nat
                  /\ match Do env k req with
                     | inr err =>
                         Request c env method path body result
                         = ((debugRequest c method path bodyReader
                               ++ scheduleEvents req 0 k)%list,
                            Returns (result, Some (WrapError "request failed: " err)))
                     | inl resp =>
                         Request c env method path body result
                         = ((debugRequest c method path bodyReader
                               ++ scheduleEvents req 0 k
                               ++ trace (finish c resp result))%list,
                            Returns (value (finish c resp result)))
                     end).
  { intros br Hw Hm. rewrite (Request_execute _ _ _ _ _ _ _ Hw Hm).
    unfold trace at 1, value at 1. cbn [fst snd].
    destruct (NewRequestErr env method (baseURL c ++ path) br) as [nerr|] eqn:Hn.
    - left. unfold execute. rewrite Hn. cbn [trace value ret fst snd].
      rewrite app_nil_r. split; [apply debugRequest_quiet|].
      exists "failed to create request: ", nerr.
      split; [right; right; left; reflexivity | reflexivity].
    - right.
      destruct (doWithRetries_shape env
                  (mkHTTPRequest method (baseURL c ++ path) br (headers c)))
        as [k [Hle [_ [_ Hloop]]]].
      exists k. cbn zeta. split; [exact Hle|].
      destruct (Do env k _) as [resp | err] eqn:Hd.
      + assert (Hs : settles env
                       (mkHTTPRequest method (baseURL c ++ path) br (headers c))
                       resp)
          by (unfold settles; rewrite Hloop; reflexivity).
        rewrite (execute_settles _ _ _ _ _ _ _ Hn Hs), Hloop. reflexivity.
      + assert (Hs : value (doWithRetries env
                              (mkHTTPRequest method (baseURL c ++ path) br
                                             (headers c))
                              (seq 0 (S maxRetries)))
                     = LoopReturn (Errorf_w "request failed: " err))
          by (rewrite Hloop; reflexivity).
        rewrite (execute_gives_up _ _ _ _ _ _ _ Hn Hs), Hloop. reflexivity. }
  destruct (Wait env) as [werr|] eqn:Hw.
  - left. unfold Request. rewrite Hw. split; [reflexivity|].
    exists "rate limiter error: ", werr. split; [left; reflexivity | reflexivity].
  - destruct body as [b|].
    + destruct (Marshal b) as [jsonBody [merr|]] eqn:Hm.
      * left. unfold Request. rewrite Hw, Hm. split; [reflexivity|].
        exists "failed to marshal request body: ", merr.
        split; [right; left; reflexivity | reflexivity].
      * assert (Hmt : marshalsTo (Some b) (Some jsonBody))
          by (unfold marshalsTo; simpl; rewrite Hm; reflexivity).
        destruct (Hex (Some jsonBody) eq_refl Hmt) as [H | [k H]];
          [left; exact H | right; exists (Some jsonBody), k; split; [exact Hmt | exact H]].
    + assert (Hmt : marshalsTo None None) by reflexivity.
      destruct (Hex None eq_refl Hmt) as [H | [k H]];
        [left; exact H | right; exists None, k; split; [exact Hmt | exact H]].
Qed.

End Shape.

Lemma schedule_bounds (t : list event) k :
  (k <= maxRetries)%nat ->
  wire t = schedule k ->
  (countSends t <= S maxRetries)%nat /\ 0 <= totalSleep t <= 7 * time.Second.
Proof.
  intros Hk Hw. rewrite countSends_wire, totalSleep_wire, Hw.
  unfold maxRetries in *.
  destruct k as [|[|[|[|k]]]]; try lia; vm_compute; repeat split;
    try lia; discriminate.
Qed.

Section ExecutorBounds.

Context `{UnmarshalErr : Unmarshaler errResp}.
Context {B D : Type} `{MarshalB : Marshaler B} `{UnmarshalD : Unmarshaler D}.

Variables (c : Client) (env : Env) (method path : string).
Variables (body : option B) (result : option D).

(** X3. Whatever the limiter, the transport and the server do, one call
    either sends nothing, or sends number 0 to [k] for some [k] up to 3
    with exactly the sleep of 2^i seconds after each send [i] before the
    last. So a call never sends more than four times and never sleeps
    more than seven seconds in all. *)
Theorem Request_follows_schedule :
  let t := trace (Request c env method path body result) in
  (wire t = [] \/ exists k, (k <= maxRetries)%nat /\ wire t = schedule k)
  /\ (countSends t <= S maxRetries)%nat
  /\ 0 <= totalSleep t <= 7 * time.Second.
Proof.
  intros t. subst t.
  destruct (Request_cases c env method path body result)
    as [[Hq _] | [br [k [Hm [Hk Hr]]]]].
  - apply wire_quiet in Hq.
    split; [left; exact Hq|].
    rewrite countSends_wire, totalSleep_wire, Hq. vm_compute.
    repeat split; try lia; discriminate.
  - assert (Hw : wire (trace (Request c env method path body result)) = schedule k).
    { destruct (Do env k _) as [resp | err]; rewrite Hr;
        unfold trace at 1; cbn [fst]; rewrite !wire_app,
          (wire_quiet _ (debugRequest_quiet _ _ _ _)), wire_scheduleEvents;
        [rewrite (wire_quiet _ (finish_quiet _ _ _)), app_nil_r|];
        reflexivity. }
    split; [right; exists k; split; [exact Hk | exact Hw]|].
    exact (schedule_bounds _ k Hk Hw).
Qed.

(** X4. When the first [k] sends are retried (transport failures or
    statuses 429 and 5xx) and send [k], with [k] up to 3, is answered
    with a status that is not retried, the call does exactly the
    schedule up to [k] and returns what the code after the loop makes of
    that response. *)
Theorem Request_recovers bodyReader k resp :
  let req := mkHTTPRequest method (baseURL c ++ path) bodyReader (headers c) in
  Wait env = None ->
  marshalsTo body bodyReader ->
  NewRequestErr env method (baseURL c ++ path) bodyReader = None ->
  (k <= maxRetries)%nat ->
  (forall i, (i < k)%nat -> retried (Do env i req) = true) ->
  Do env k req = inl resp ->
  retry_status (resp_StatusCode resp) = false ->
  wire (trace (Request c env method path body result)) = schedule k
  /\ value (Request c env method path body result)
     = Returns (value (finish c resp result)).
Proof.
  intros req Hw Hm Hn Hk Hretry Hd Hs.
  assert (Hloop : doWithRetries env req (seq 0 (S maxRetries))
                  = (scheduleEvents req 0 k, LoopBreak resp)).
  { replace (seq 0 (S maxRetries))
      with (seq 0 (S k) ++ seq (S k) (maxRetries - k))%list
      by (rewrite <- seq_app; f_equal; lia).
    rewrite (doWithRetries_schedule env req k 0).
    - simpl. rewrite Hd. reflexivity.
    - intros i Hi. apply Hretry. lia.
    - simpl. exact Hk.
    - right. simpl. rewrite Hd. exact Hs. }
  assert (Hst : settles env req resp) by (unfold settles; rewrite Hloop; reflexivity).
  rewrite (Request_settles c env method path body bodyReader result resp Hw Hm Hn Hst).
  fold req. rewrite Hloop. unfold trace at 1 2, value at 1. cbn [fst snd].
  split; [|reflexivity].
  rewrite !wire_app, (wire_quiet _ (debugRequest_quiet _ _ _ _)),
    wire_scheduleEvents, (wire_quiet _ (finish_quiet _ _ _)), app_nil_r.
  reflexivity.
Qed.

(** X5. An error returned by a call is of one of two kinds. Either it is
    a wrapper, under one of six fixed prefixes, of an error that a
    package handed over; or it is an API error, and then its status code
    is 400 or more and is the status of a response that the transport
    delivered, whose [x-request-id] header is the error's request id. *)
Theorem Request_error_taxonomy d err :
  value (Request c env method path body result) = Returns (d, Some err) ->
  match base err with
  | None =>
      exists prefix inner, In prefix wrapPrefixes /\ err = WrapError prefix inner
  | Some e =>
      400 <= StatusCode e
      /\ exists attempt req resp,
           Do env attempt req = inl resp
           /\ resp_StatusCode resp = StatusCode e
           /\ resp_HeaderGet resp "x-request-id" = RequestID e
  end.
Proof.
  intros Hv.
  destruct (Request_cases c env method path body result)
    as [[_ [prefix [inner [Hin Hr]]]] | [br [k [Hm [Hk Hr]]]]].
  - rewrite Hr in Hv. injection Hv as _ <-. simpl.
    exists prefix, inner. split; [|reflexivity].
    unfold wrapPrefixes. simpl in *. tauto.
  - destruct (Do env k _) as [resp | terr] eqn:Hd; rewrite Hr in Hv;
      unfold value at 1 in Hv; cbn [snd] in Hv.
    + revert Hv. unfold finish.
      destruct (resp_ReadErr resp) as [rerr|].
      * cbn. intros Hv. injection Hv as _ <-. simpl.
        exists "failed to read response body: ", rerr.
        split; [unfold wrapPrefixes; simpl; tauto | reflexivity].
      * rewrite value_bind.
        destruct (resp_StatusCode resp >=? 400) eqn:Hge.
        -- rewrite value_bind. cbn. intros Hv. injection Hv as _ <-.
           destruct (handleError_base (resp_StatusCode resp) (resp_Body resp)
                       (resp_HeaderGet resp "x-request-id"))
             as [e [Hb [Hs Hid]]].
           rewrite Hb. apply Z.geb_le in Hge. split; [lia|].
           eexists k, _, resp. split; [exact Hd | split; congruence].
        -- destruct result as [d0|]; [|discriminate].
           destruct (0 <? length (resp_Body resp))%nat; [|discriminate].
           rewrite value_bind.
           destruct (Unmarshal (resp_Body resp) d0) as [d' [perr|]];
             [|discriminate].
           cbn. intros Hv. injection Hv as _ <-. simpl.
           exists "failed to parse response: ", perr.
           split; [unfold wrapPrefixes; simpl; tauto | reflexivity].
    + injection Hv as _ <-. simpl.
      exists "request failed: ", terr.
      split; [unfold wrapPrefixes; simpl; tauto | reflexivity].
Qed.

(** X6. A call changes the destination only by decoding a response: when
    it returns an error other than a parse failure, the destination is
    handed back as it was. *)
Theorem Request_keeps_destination d err :
  value (Request c env method path body result) = Returns (d, Some err) ->
  (forall inner, err <> WrapError "failed to parse response: " inner) ->
  d = result.
Proof.
  intros Hv Hnp.
  destruct (Request_cases c env method path body result)
    as [[_ [prefix [inner [Hin Hr]]]] | [br [k [Hm [Hk Hr]]]]].
  - rewrite Hr in Hv. injection Hv as <- _. reflexivity.
  - destruct (Do env k _) as [resp | terr] eqn:Hd; rewrite Hr in Hv;
      unfold value at 1 in Hv; cbn [snd] in Hv.
    + revert Hv. unfold finish.
      destruct (resp_ReadErr resp) as [rerr|].
      * cbn. intros Hv. injection Hv as <- _. reflexivity.
      * rewrite value_bind.
        destruct (resp_StatusCode resp >=? 400).
        -- rewrite value_bind. cbn. intros Hv. injection Hv as <- _. reflexivity.
        -- destruct result as [d0|]; [|discriminate].
           destruct (0 <? length (resp_Body resp))%nat; [|discriminate].
           rewrite value_bind.
           destruct (Unmarshal (resp_Body resp) d0) as [d' [perr|]];
             [|discriminate].
           cbn. intros Hv. injection Hv as _ <-.
           destruct (Hnp perr eq_refl).
    + injection Hv as <- _. reflexivity.
Qed.

End ExecutorBounds.



Section ExecutorRequests.

Context `{UnmarshalErr : Unmarshaler errResp}.
Context {B D : Type} `{MarshalB : Marshaler B} `{UnmarshalD : Unmarshaler D}.

Variables (c : Client) (env : Env) (method path : string).
Variables (body : option B) (result : option D).


(** X8. A body that cannot be serialized, or a request that cannot be
    built, ends the call before anything is sent: the call returns the
    failure under its own prefix, hands the destination back as it was,
    and its trace has no send and no sleep. *)
Theorem Request_fails_before_sending :
  Wait env = None ->
  (forall b jsonBody merr,
      body = Some b -> Marshal b = (jsonBody, Some merr) ->
      Request c env method path body result
      = ([], Returns (result,
                      Some (WrapError "failed to marshal request body: " merr))))
  /\ (forall bodyReader nerr,
         marshalsTo body bodyReader ->
         NewRequestErr env method (baseURL c ++ path) bodyReader = Some nerr ->
         wire (trace (Request c env method path body result)) = []
         /\ value (Request c env method path body result)
            = Returns (result,
                       Some (WrapError "failed to create request: " nerr))).
Proof.
  intros Hw. split.
  - intros b jsonBody merr -> Hm. unfold Request. rewrite Hw, Hm. reflexivity.
  - intros br nerr Hm Hn. rewrite (Request_execute _ _ _ _ _ _ _ Hw Hm).
    unfold execute. rewrite Hn. unfold trace, value. cbn [fst snd ret].
    rewrite app_nil_r. split; [|reflexivity].
    apply wire_quiet, debugRequest_quiet.
Qed.

End ExecutorRequests.

Lemma Request_recovers_witness :
  wire (trace (Cases.get
                 (flaky (Scenario.response 200 (list_byte_of_string "true")))
                 (Some false)))
  = schedule 2
  /\ value (Cases.get
              (flaky (Scenario.response 200 (list_byte_of_string "true")))
              (Some false))
     = Returns (Some true, None).
Proof.
  apply (@Request_recovers
           Scenario.unmarshalErrResp unit bool Scenario.marshalUnit
           Scenario.unmarshalBool Scenario.client
           (flaky (Scenario.response 200 (list_byte_of_string "true")))
           "GET" "/emails/em_1" None (Some false) None 2
           (Scenario.response 200 (list_byte_of_string "true"))).
  - reflexivity.
  - reflexivity.
  - reflexivity.
  - unfold maxRetries. lia.
  - intros i Hi. destruct i as [|[|i]]; [reflexivity | reflexivity | lia].
  - reflexivity.
  - reflexivity.
Defined.

Lemma Request_error_taxonomy_witness :
  400 <= 404
  /\ exists attempt req resp,
       Do (Scenario.answering (Scenario.response 404 Scenario.envelopeBody))
          attempt req = inl resp
       /\ resp_StatusCode resp = 404
       /\ resp_HeaderGet resp "x-request-id" = "req_42".
Proof.
  apply (@Request_error_taxonomy
           Scenario.unmarshalErrResp unit bool Scenario.marshalUnit
           Scenario.unmarshalBool Scenario.client
           (Scenario.answering (Scenario.response 404 Scenario.envelopeBody))
           "GET" "/emails/em_1" None (Some false) (Some false)
           (NotFoundErr
              (mkNotFoundError
                 (mkEKDSendError "invalid recipient" 404 "invalid_recipient"
                                 "req_42")))).
  vm_compute. reflexivity.
Defined.

Lemma Request_keeps_destination_witness :
  Some false = Some false.
Proof.
  apply (@Request_keeps_destination
           Scenario.unmarshalErrResp unit bool Scenario.marshalUnit
           Scenario.unmarshalBool Scenario.client
           (Scenario.unreachable (LibError "connection refused"))
           "GET" "/emails/em_1" None (Some false) (Some false)
           (WrapError "request failed: " (LibError "connection refused"))).
  - vm_compute. reflexivity.
  - intros inner H. discriminate H.
Defined.


Lemma Request_fails_before_sending_witness :
  @Request Scenario.unmarshalErrResp Chan bool marshalChan Scenario.unmarshalBool
           Scenario.client (Scenario.answering (Scenario.response 204 []))
           "POST" "/emails" (Some mkChan) (Some false)
  = ([], Returns (Some false,
                  Some (WrapError "failed to marshal request body: "
                          (LibError "json: unsupported type: chan int")))).
Proof.
  destruct (@Request_fails_before_sending
              Scenario.unmarshalErrResp Chan bool marshalChan
              Scenario.unmarshalBool Scenario.client
              (Scenario.answering (Scenario.response 204 []))
              "POST" "/emails" (Some mkChan) (Some false) eq_refl)
    as [Hm _].
  apply (Hm mkChan [] (LibError "json: unsupported type: chan int"));
    reflexivity.
Defined.

(** ** Construction options *)

Lemma length_append (s1 s2 : string) :
  String.length (s1 ++ s2) = (String.length s1 + String.length s2)%nat.
Proof. induction s1 as [|a s1 IH]; simpl; [reflexivity | rewrite IH; reflexivity]. Qed.

Lemma substring_whole (s : string) : substring 0 (String.length s) s = s.
Proof. induction s as [|a s IH]; simpl; [reflexivity | rewrite IH; reflexivity]. Qed.

Lemma substring_suffix_app (s suffix : string) :
  substring (String.length s) (String.length suffix) (s ++ suffix) = suffix.
Proof.
  induction s as [|a s IH]; simpl; [apply substring_whole | exact IH].
Qed.

Lemma HasSuffix_app (s suffix : string) :
  strings.HasSuffix (s ++ suffix) suffix = true.
Proof.
  unfold strings.HasSuffix. rewrite length_append.
  replace (String.length s + String.length suffix - String.length suffix)%nat
    with (String.length s) by lia.
  rewrite substring_suffix_app, String.eqb_refl.
  rewrite andb_true_r. apply Nat.leb_le. lia.
Qed.

Lemma TrimSuffix_app (s suffix : string) :
  strings.TrimSuffix (s ++ suffix) suffix = s.
Proof.
  unfold strings.TrimSuffix. rewrite HasSuffix_app, length_append.
  replace (String.length s + String.length suffix - String.length suffix)%nat
    with (String.length s) by lia.
  apply substring_prefix_app.
Qed.

(** X9. [WithBaseURL] drops one trailing slash and no more: a URL given
    with a slash appended is stored without it, whatever came before the
    slash (another slash included), and a URL that does not end in a
    slash is stored as it is. In both cases no other field of the client
    changes. *)
Theorem WithBaseURL_drops_one_slash (u : string) (c : Client) :
  WithBaseURL (u ++ "/") c
  = mkClient (apiKey c) u (httpClient c) (rateLimiter c) (debug c)
  /\ (strings.HasSuffix u "/" = false ->
      WithBaseURL u c
      = mkClient (apiKey c) u (httpClient c) (rateLimiter c) (debug c)).
Proof.
  unfold WithBaseURL. split.
  - rewrite TrimSuffix_app. reflexivity.
  - intros H. unfold strings.TrimSuffix. rewrite H. reflexivity.
Qed.

Lemma providedOption_apiKey opt c : providedOption opt -> apiKey (opt c) = apiKey c.
Proof. intros H. destruct H; reflexivity. Qed.

Lemma fold_provided_apiKey opts c :
  Forall providedOption opts ->
  apiKey (fold_left (fun c (opt : ClientOption) => opt c) opts c) = apiKey c.
Proof.
  intros H. revert c. induction H as [|opt opts Hopt _ IH]; intros c.
  - reflexivity.
  - simpl. rewrite IH. apply providedOption_apiKey, Hopt.
Qed.

(** X10. No option of the package touches the credential: a client
    built by [New] from a key and any list of the five provided options
    holds that key, and every request it sends bears it in the
    authorization header. *)
Theorem New_keeps_credential (key : string) (opts : list ClientOption) c :
  Forall providedOption opts ->
  New key opts = (Some c, None) ->
  apiKey c = key
  /\ In ("Authorization", ("Bearer " ++ key)%string) (headers c).
Proof.
  intros Hopts Hnew. unfold New in Hnew.
  destruct (String.eqb key ""); [discriminate Hnew|].
  destruct (negb _ && negb _); [discriminate Hnew|].
  injection Hnew as <-. unfold headers.
  rewrite !(fold_provided_apiKey _ _ Hopts). simpl.
  split; [reflexivity | left; reflexivity].
Qed.

Lemma New_keeps_credential_witness :
  apiKey (mkClient "ek_live_abc" "https://example.test/v1"
                   (mkHTTPClient (5 * time.Second)) (mkLimiter 100 10) true)
  = "ek_live_abc"
  /\ In ("Authorization", "Bearer ek_live_abc")
        (headers (mkClient "ek_live_abc" "https://example.test/v1"
                           (mkHTTPClient (5 * time.Second)) (mkLimiter 100 10)
                           true)).
Proof.
  apply (New_keeps_credential
           "ek_live_abc"
           [WithBaseURL "https://example.test/v1/"; WithDebug true;
            WithTimeout (5 * time.Second)]).
  - repeat constructor.
  - reflexivity.
Defined.

(** ** Paging *)

(** X11. Following [NextOffset] moves forward: when the offset is not
    negative, the limit is positive and their sum does not exceed the
    largest [int], the next offset lies strictly after the offset, and
    it lies below the total exactly when [HasMore] says so. With limit 0
    the next offset is the offset itself: paging stalls. *)
Theorem paging_advances {T} (p : PaginatedResponse T) :
  0 <= Offset p ->
  0 <= Limit p ->
  Offset p + Limit p <= GoInt.MaxInt ->
  (0 < Limit p -> Offset p < NextOffset p)
  /\ (Limit p = 0 -> NextOffset p = Offset p)
  /\ (HasMore p = true <-> NextOffset p < Total p).
Proof.
  intros Ho Hl Hsum. unfold HasMore, NextOffset, GoInt.add.
  rewrite wrap_small
    by (unfold GoInt.in_range, GoInt.MinInt, GoInt.MaxInt, GoInt.bits in *; lia).
  split; [lia | split; [lia | apply Z.ltb_lt]].
Qed.

Lemma paging_advances_witness :
  let p := mkPaginatedResponse [1%nat; 2%nat] 45 20 20 in
  (0 < Limit p -> Offset p < NextOffset p)
  /\ (Limit p = 0 -> NextOffset p = Offset p)
  /\ (HasMore p = true <-> NextOffset p < Total p).
Proof.
  apply (paging_advances (mkPaginatedResponse [1%nat; 2%nat] 45 20 20));
    unfold GoInt.MaxInt, GoInt.bits; simpl; lia.
Defined.

(** ** The voice operations *)

Section VoiceOperations.

Context `{UnmarshalErr : Unmarshaler errResp}
        `{Encoder : QueryEncoder}
        `{UnmarshalCall : Unmarshaler callResp}
        `{UnmarshalRecording : Unmarshaler recordingResp}
        `{UnmarshalPage : Unmarshaler (PaginatedResponse VoiceCall)}.

Variables (c : Client) (env : Env).

Lemma Get_sends {D} `{UnmarshalD : Unmarshaler D} path params
      (result : option D) attempt r :
  In (EvSend attempt r) (trace (Get c env path params result)) ->
  r = mkHTTPRequest "GET"
        (baseURL c ++ (if (0 <? size params)%nat
                       then path ++ "?" ++ Encode params else path))
        None (headers c).
Proof.
  unfold Get. intros H.
  destruct (Request_sends _ _ _ _ _ _ _ _ H) as [br [Hm ->]].
  unfold marshalsTo in Hm. destruct br; [discriminate Hm | reflexivity].
Qed.

Lemma Delete_sends {D} `{UnmarshalD : Unmarshaler D} path
      (result : option D) attempt r :
  In (EvSend attempt r) (trace (Delete c env path result)) ->
  r = mkHTTPRequest "DELETE" (baseURL c ++ path) None (headers c).
Proof.
  unfold Delete. intros H.
  destruct (Request_sends _ _ _ _ _ _ _ _ H) as [br [Hm ->]].
  unfold marshalsTo in Hm. destruct br; [discriminate Hm | reflexivity].
Qed.

(** The trace of an operation that only unwraps the executor's result. *)
Lemma trace_unwrap {A R} (m : M (outcome (option A * option error)))
      (k : outcome (option A * option error) -> R) :
  trace (r <- m ;; ret (k r)) = trace m.
Proof. rewrite trace_bind. simpl. apply app_nil_r. Qed.

Lemma trace_VoiceGet callID :
  trace (VoiceAPI.Get c env callID)
  = trace (Get c env ("/calls/" ++ callID) ∅ (Some zeroCallResp)).
Proof.
  unfold VoiceAPI.Get. rewrite trace_bind.
  destruct (value _) as [[resp [err|]]|]; simpl; apply app_nil_r.
Qed.

Lemma trace_VoiceHangup callID :
  trace (VoiceAPI.Hangup c env callID)
  = trace (Delete c env ("/calls/" ++ callID) (Some zeroCallResp)).
Proof.
  unfold VoiceAPI.Hangup. rewrite trace_bind.
  destruct (value _) as [[resp [err|]]|]; simpl; apply app_nil_r.
Qed.

Lemma trace_VoiceGetRecording callID :
  trace (VoiceAPI.GetRecording c env callID)
  = trace (Get c env ("/calls/" ++ callID ++ "/recording") ∅
               (Some zeroRecordingResp)).
Proof.
  unfold VoiceAPI.GetRecording. rewrite trace_bind.
  destruct (value _) as [[resp [err|]]|]; simpl; apply app_nil_r.
Qed.

(** X12. Reading a call and hanging it up address the same URL, the
    base URL followed by /calls/ and the id as given, the first with GET
    and the second with DELETE; the recording is read with GET from that
    URL followed by /recording. None of the three sends a body or a
    query, and the id is spliced in as it is, unescaped. *)
Theorem VoiceAPI_addresses callID attempt r :
  (In (EvSend attempt r) (trace (VoiceAPI.Get c env callID)) ->
   r = mkHTTPRequest "GET" (baseURL c ++ "/calls/" ++ callID) None (headers c))
  /\ (In (EvSend attempt r) (trace (VoiceAPI.Hangup c env callID)) ->
      r = mkHTTPRequest "DELETE" (baseURL c ++ "/calls/" ++ callID) None
                        (headers c))
  /\ (In (EvSend attempt r) (trace (VoiceAPI.GetRecording c env callID)) ->
      r = mkHTTPRequest "GET" (baseURL c ++ "/calls/" ++ callID ++ "/recording")
                        None (headers c)).
Proof.
  split; [|split]; intros H.
  - rewrite trace_VoiceGet in H. apply Get_sends in H.
    rewrite map_size_empty in H. exact H.
  - rewrite trace_VoiceHangup in H. apply Delete_sends in H. exact H.
  - rewrite trace_VoiceGetRecording in H. apply Get_sends in H.
    rewrite map_size_empty in H. exact H.
Qed.

(** X13. Listing calls always sends a query. With parameters given,
    the query holds the limit and the offset of the parameters in
    decimal, also when they are 0, and each of status, from_date and
    to_date just when the parameter is not empty; with no parameters it
    holds limit 20 and offset 0. It holds no other key, and the request
    is a GET of /calls with that query and without body. *)
Theorem VoiceAPI_List_query params attempt r :
  let p := default (mkListCallsParams 20 0 "" "" "") params in
  let filter (value : string) :=
    if String.eqb value "" then None else Some [value] in
  In (EvSend attempt r) (trace (VoiceAPI.List c env params)) ->
  exists query : gmap string (list string),
    r = mkHTTPRequest "GET" (baseURL c ++ "/calls?" ++ Encode query) None
                      (headers c)
    /\ query !! "limit" = Some [Itoa (lp_Limit p)]
    /\ query !! "offset" = Some [Itoa (lp_Offset p)]
    /\ query !! "status" = filter (lp_Status p)
    /\ query !! "from_date" = filter (lp_FromDate p)
    /\ query !! "to_date" = filter (lp_ToDate p)
    /\ forall key, key <> "limit" -> key <> "offset" -> key <> "status" ->
                   key <> "from_date" -> key <> "to_date" ->
                   query !! key = None.
Proof.
  intros p filter H. unfold VoiceAPI.List in H.
  change (match params with
          | Some q => q
          | None => mkListCallsParams 20 0 "" "" ""
          end) with p in H.
  rewrite trace_bind in H.
  match type of H with
  | In _ (trace (Get _ _ _ ?q _) ++ _)%list => set (query := q) in *
  end.
  assert (Hin : In (EvSend attempt r)
                   (trace (Get c env "/calls" query (Some zeroCallPage)))).
  { apply in_app_or in H. destruct H as [H | H]; [exact H|].
    destruct (value _) as [[resp [err|]]|]; destruct H. }
  clear H. apply Get_sends in Hin.
  assert (Hsize : (0 <? size query)%nat = true).
  { apply Nat.ltb_lt.
    assert (Hne : query <> ∅).
    { unfold query, Values_Set.
      destruct (negb (String.eqb (lp_ToDate p) ""));
        destruct (negb (String.eqb (lp_FromDate p) ""));
        destruct (negb (String.eqb (lp_Status p) ""));
        apply insert_non_empty. }
    apply map_size_non_empty_iff in Hne. lia. }
  rewrite Hsize in Hin. exists query. split; [exact Hin|].
  unfold query, Values_Set, filter.
  destruct (String.eqb (lp_ToDate p) "");
    destruct (String.eqb (lp_FromDate p) "");
    destruct (String.eqb (lp_Status p) ""); cbn [negb];
    (repeat split;
     [ repeat (rewrite lookup_insert_ne by discriminate);
       rewrite ?lookup_insert_eq, ?lookup_empty; reflexivity ..
     | intros key H1 H2 H3 H4 H5;
       repeat (rewrite lookup_insert_ne by congruence);
       apply lookup_empty ]).
Qed.


End VoiceOperations.

Lemma VoiceAPI_addresses_witness :
  mkHTTPRequest "DELETE" "https://es.ekddigital.com/v1/calls/call_1" None
                (headers Scenario.client)
  = mkHTTPRequest "DELETE" (baseURL Scenario.client ++ "/calls/" ++ "call_1")
                  None (headers Scenario.client).
Proof.
  destruct (VoiceAPI_addresses
              (UnmarshalErr := Scenario.unmarshalErrResp)
              (Encoder := Query.encode)
              (UnmarshalCall := Scenario.unmarshalCallResp)
              (UnmarshalRecording := unmarshalNoRecording)
              Scenario.client
              (Scenario.answering (Scenario.response 200 Scenario.callBody))
              "call_1" 0%nat
              (mkHTTPRequest "DELETE" "https://es.ekddigital.com/v1/calls/call_1"
                             None (headers Scenario.client)))
    as [_ [Hh _]].
  apply Hh. left. reflexivity.
Defined.

Lemma VoiceAPI_List_query_witness :
  exists query : gmap string (list string),
    mkHTTPRequest "GET"
      "https://es.ekddigital.com/v1/calls?limit=0&offset=0&status=completed"
      None (headers Scenario.client)
    = mkHTTPRequest "GET"
        (baseURL Scenario.client ++ "/calls?" ++ Query.encode query) None
        (headers Scenario.client)
    /\ query !! "limit" = Some ["0"]
    /\ query !! "status" = Some ["completed"]
    /\ query !! "from_date" = None.
Proof.
  destruct (VoiceAPI_List_query
              (UnmarshalErr := Scenario.unmarshalErrResp)
              (Encoder := Query.encode)
              (UnmarshalPage := unmarshalNoPage)
              Scenario.client
              (Scenario.answering (Scenario.response 403 Scenario.htmlBody))
              (Some (mkListCallsParams 0 0 "completed" "" "")) 0%nat
              (mkHTTPRequest "GET"
                 "https://es.ekddigital.com/v1/calls?limit=0&offset=0&status=completed"
                 None (headers Scenario.client)))
    as [query [Hr [Hl [_ [Hs [Hf _]]]]]].
  - vm_compute. left. reflexivity.
  - exists query. split; [exact Hr | split; [exact Hl | split; [exact Hs | exact Hf]]].
Defined.

(** ** Listing emails *)

Section EmailOperations.

Context `{UnmarshalErr : Unmarshaler errResp}
        `{Encoder : QueryEncoder}
        `{UnmarshalPage : Unmarshaler (PaginatedResponse Email)}.

Variables (c : Client) (env : Env).

(** X15. The tags reach the server only through their join with
    commas, made before the query is escaped: two listings whose
    parameters agree except for tag lists that are both non-empty and
    have the same join behave alike in everything, sends and result. A
    tag that holds a comma cannot be told from two tags. *)
Theorem EmailsAPI_List_tags_by_join limit offset status fromDate toDate
        tags1 tags2 :
  tags1 <> [] ->
  tags2 <> [] ->
  strings.Join tags1 "," = strings.Join tags2 "," ->
  EmailsAPI.List c env
    (Some (mkListEmailsParams limit offset status fromDate toDate tags1))
  = EmailsAPI.List c env
      (Some (mkListEmailsParams limit offset status fromDate toDate tags2)).
Proof.
  intros H1 H2 Hj. unfold EmailsAPI.List.
  cbn [le_Limit le_Offset le_Status le_FromDate le_ToDate le_Tags].
  rewrite Hj.
  destruct tags1 as [|t1 tags1]; [contradiction|].
  destruct tags2 as [|t2 tags2]; [contradiction|].
  reflexivity.
Qed.

End EmailOperations.

Lemma EmailsAPI_List_tags_by_join_witness :
  EmailsAPI.List (UnmarshalErr := Scenario.unmarshalErrResp)
                 (Encoder := Query.encode)
                 (UnmarshalPage := unmarshalNoEmailPage)
                 Scenario.client
                 (Scenario.answering (Scenario.response 403 Scenario.htmlBody))
                 (Some (mkListEmailsParams 20 0 "" "" "" ["a,b"]))
  = EmailsAPI.List (UnmarshalErr := Scenario.unmarshalErrResp)
                   (Encoder := Query.encode)
                   (UnmarshalPage := unmarshalNoEmailPage)
                   Scenario.client
                   (Scenario.answering (Scenario.response 403 Scenario.htmlBody))
                   (Some (mkListEmailsParams 20 0 "" "" "" ["a"; "b"])).
Proof.
  apply (EmailsAPI_List_tags_by_join
           (UnmarshalErr := Scenario.unmarshalErrResp)
           (Encoder := Query.encode)
           (UnmarshalPage := unmarshalNoEmailPage)).
  - discriminate.
  - discriminate.
  - reflexivity.
Defined.

(** ** Debug mode *)

Section Debug.

Context `{UnmarshalErr : Unmarshaler errResp}.
Context {B D : Type} `{MarshalB : Marshaler B} `{UnmarshalD : Unmarshaler D}.

Lemma silent_app (t1 t2 : list event) :
  silent (t1 ++ t2) = (silent t1 ++ silent t2)%list.
Proof. apply List.filter_app. Qed.

Lemma finish_debug c b resp (result : option D) :
  value (finish (WithDebug b c) resp result) = value (finish c resp result)
  /\ silent (trace (finish (WithDebug b c) resp result))
     = silent (trace (finish c resp result)).
Proof.
  unfold finish. destruct (resp_ReadErr resp); [split; reflexivity|].
  rewrite !value_bind, !trace_bind, !silent_app. split; [reflexivity|].
  f_equal. cbn [debug WithDebug]. destruct b, (debug c); reflexivity.
Qed.

Lemma execute_debug c b env method reqURL bodyReader (result : option D) :
  value (execute (WithDebug b c) env method reqURL bodyReader result)
  = value (execute c env method reqURL bodyReader result)
  /\ silent (trace (execute (WithDebug b c) env method reqURL bodyReader result))
     = silent (trace (execute c env method reqURL bodyReader result)).
Proof.
  unfold execute. change (headers (WithDebug b c)) with (headers c).
  destruct (NewRequestErr env method reqURL bodyReader); [split; reflexivity|].
  rewrite !value_bind, !trace_bind, !silent_app.
  destruct (value (doWithRetries _ _ _)); try (split; reflexivity).
  rewrite !value_bind, !trace_bind, !silent_app.
  destruct (finish_debug c b resp result) as [Hv Ht].
  rewrite Hv, Ht. split; reflexivity.
Qed.

(** X16. Debug mode only adds output: switching it on or off changes
    neither what a call returns nor, the debug lines apart, anything in
    its trace, so the same requests are sent, the same sleeps are made
    and the same bodies are decoded. With debug off the trace holds no
    debug line. *)
Theorem debug_only_prints c b env method path (body : option B)
        (result : option D) :
  value (Request (WithDebug b c) env method path body result)
  = value (Request c env method path body result)
  /\ silent (trace (Request (WithDebug b c) env method path body result))
     = silent (trace (Request c env method path body result))
  /\ silent (trace (Request (WithDebug false c) env method path body result))
     = trace (Request (WithDebug false c) env method path body result).
Proof.
  assert (Hoff : forall t : list event,
             forallb (fun e => negb (is_print e)) t = true -> silent t = t).
  { intros t. unfold silent. induction t as [|e t IH]; [reflexivity|].
    simpl. intros H. apply andb_true_iff in H. destruct H as [He Ht].
    rewrite He, (IH Ht). reflexivity. }
  unfold Request. change (baseURL (WithDebug b c)) with (baseURL c).
  change (baseURL (WithDebug false c)) with (baseURL c).
  destruct (Wait env); [repeat split; reflexivity|].
  destruct body as [body0|].
  - destruct (Marshal body0) as [jsonBody [merr|]]; [repeat split; reflexivity|].
    rewrite !value_bind, !trace_bind, !silent_app.
    destruct (execute_debug c b env method (baseURL c ++ path) (Some jsonBody) result)
      as [Hv Ht].
    rewrite Hv, Ht. split; [reflexivity|]. split.
    + f_equal. cbn [debug WithDebug]. destruct b, (debug c); reflexivity.
    + rewrite <- silent_app. apply Hoff.
      cbn [debug WithDebug]. rewrite forallb_app. apply andb_true_iff.
      split; [reflexivity|].
      unfold execute.
      destruct (NewRequestErr env method (baseURL c ++ path) (Some jsonBody));
        [reflexivity|].
      rewrite trace_bind, forallb_app. apply andb_true_iff. split.
      * generalize (seq 0 (S maxRetries)). intros attempts.
        induction attempts as [|a rest IH]; [reflexivity|]. simpl.
        rewrite trace_bind. simpl.
        destruct (Do env a _) as [resp | terr].
        -- destruct (_ || _); [|reflexivity].
           destruct (a <? maxRetries)%nat; [|reflexivity].
           rewrite trace_bind. simpl. exact IH.
        -- destruct (a <? maxRetries)%nat; [|reflexivity].
           rewrite trace_bind. simpl. exact IH.
      * destruct (value (doWithRetries _ _ _)); try reflexivity.
        rewrite trace_bind, forallb_app. apply andb_true_iff.
        split; [|reflexivity].
        unfold finish. destruct (resp_ReadErr resp); [reflexivity|].
        rewrite trace_bind. cbn [debug WithDebug]. simpl.
        destruct (resp_StatusCode resp >=? 400).
        -- rewrite trace_bind, handleError_trace. reflexivity.
        -- destruct result as [d|]; [|reflexivity].
           destruct (0 <? length (resp_Body resp))%nat; [|reflexivity].
           rewrite trace_bind. simpl.
           destruct (Unmarshal (resp_Body resp) d) as [d' [perr|]]; reflexivity.
  - destruct (execute_debug c b env method (baseURL c ++ path) None result)
      as [Hv Ht].
    rewrite Hv, Ht. split; [reflexivity|]. split; [reflexivity|].
    apply Hoff. unfold execute.
    destruct (NewRequestErr env method (baseURL c ++ path) None); [reflexivity|].
    rewrite trace_bind, forallb_app. apply andb_true_iff. split.
    + generalize (seq 0 (S maxRetries)). intros attempts.
      induction attempts as [|a rest IH]; [reflexivity|]. simpl.
      rewrite trace_bind. simpl.
      destruct (Do env a _) as [resp | terr].
      * destruct (_ || _); [|reflexivity].
        destruct (a <? maxRetries)%nat; [|reflexivity].
        rewrite trace_bind. simpl. exact IH.
      * destruct (a <? maxRetries)%nat; [|reflexivity].
        rewrite trace_bind. simpl. exact IH.
    + destruct (value (doWithRetries _ _ _)); try reflexivity.
      rewrite trace_bind, forallb_app. apply andb_true_iff.
      split; [|reflexivity].
      unfold finish. destruct (resp_ReadErr resp); [reflexivity|].
      rewrite trace_bind. cbn [debug WithDebug]. simpl.
      destruct (resp_StatusCode resp >=? 400).
      * rewrite trace_bind, handleError_trace. reflexivity.
      * destruct result as [d|]; [|reflexivity].
        destruct (0 <? length (resp_Body resp))%nat; [|reflexivity].
        rewrite trace_bind. simpl.
        destruct (Unmarshal (resp_Body resp) d) as [d' [perr|]]; reflexivity.
Qed.

End Debug.
